(** * Guardian policy engine: the Request and Mint blocks

    A shallow embedding of
      guardian-service/src/policy-engine/blocks/request-vc-document-block.ts
      guardian-service/src/policy-engine/blocks/mint-block.ts
    Block methods are functions in a state-and-exception monad over the
    block's world: the fields of the block instance together with journals
    of the effects it has on its collaborators (ledger, repository, wallet,
    event bus, logger).  Answers of the collaborators come from an [Env]
    record, so that every path of the code, failing ones included, can be
    driven. *)

From Stdlib Require Import String ZArith List Bool.
From stdpp Require Import base option strings gmap list pretty.
Import ListNotations.
Local Open Scope string_scope.

(** ** JavaScript values and exceptions *)

Module Js.

(** The integers that a JavaScript number holds exactly and prints in
    plain decimal notation: [Number.isSafeInteger]. *)
Definition isSafeInteger (n : Z) : bool :=
  (Z.abs n <=? 9007199254740991)%Z.

(** Values found in the untyped [options] bag of a block: [undefined],
    [null], booleans, strings, plain objects, and the numbers that are
    safe integers.  Other numbers (fractions, numbers beyond the safe
    range, [NaN], the infinities), whose conversion to a string follows
    IEEE rounding, are no values of this type. *)
Inductive JsVal :=
| VUndefined
| VNull
| VBool (b : bool)
| VNum (n : Z) (safe : isSafeInteger n = true)
| VStr (s : string)
| VObj.

(** ToBoolean. *)
Definition truthy (v : JsVal) : bool :=
  match v with
  | VUndefined | VNull => false
  | VBool b => b
  | VNum n _ => negb (n =? 0)%Z
  | VStr s => negb (String.eqb s EmptyString)
  | VObj => true
  end.

(** [typeof v === 'string'] *)
Definition is_string (v : JsVal) : bool :=
  match v with VStr _ => true | _ => false end.

(** Template-literal interpolation of a value.  A safe integer is
    printed in decimal notation, with its sign when negative. *)
Definition to_string (v : JsVal) : string :=
  match v with
  | VUndefined => "undefined"
  | VNull => "null"
  | VBool true => "true"
  | VBool false => "false"
  | VNum n _ => pretty n
  | VStr s => s
  | VObj => "[object Object]"
  end.

(** A string-valued property that may be absent ([undefined]). *)
Definition truthy_str (o : option string) : bool :=
  match o with
  | Some s => negb (String.eqb s EmptyString)
  | None => false
  end.

Definition show_str (o : option string) : string :=
  match o with Some s => s | None => "undefined" end.

(** ToBoolean of an object reference that may be [undefined]. *)
Definition truthy_obj {A} (o : option A) : bool :=
  match o with Some _ => true | None => false end.

(** [v === 'lit'] for a string literal. *)
Definition strict_eq_str (v : JsVal) (lit : string) : bool :=
  match v with VStr s => String.eqb s lit | _ => false end.

(** IEEE doubles, as far as the code looks at them: the three special
    values, and finite values [mantissa * 2 ^ exponent]. *)
Inductive JsNumber :=
| NaN
| PosInfinity
| NegInfinity
| Finite (mantissa exponent : Z).

Definition Number_isNaN (x : JsNumber) : bool :=
  match x with NaN => true | _ => false end.

Definition Number_isFinite (x : JsNumber) : bool :=
  match x with Finite _ _ => true | _ => false end.

(** Exceptions.  [BlockActionError] is built either from a message or,
    as in [new BlockActionError(error, ...)], from a caught exception. *)
Inductive JsError :=
| BlockActionError (arg : ErrArg) (blockType uuid : string)
| TypeError (msg : string)
| Failure (msg : string)
with ErrArg :=
| Text (s : string)
| Caught (e : JsError).

(** [error.message]; an exception given as message is converted to a
    string as [Error.prototype.toString] does. *)
Fixpoint message (e : JsError) : string :=
  match e with
  | BlockActionError a _ _ => arg_message a
  | TypeError m => m
  | Failure m => m
  end
with arg_message (a : ErrArg) : string :=
  match a with
  | Text s => s
  | Caught e =>
      match e with
      | TypeError _ => "TypeError: " +:+ message e
      | _ => "Error: " +:+ message e
      end
  end.

Inductive Result (A : Type) :=
| Ok (a : A)
| Throw (e : JsError).
Arguments Ok {A} a.
Arguments Throw {A} e.

End Js.
Export Js.

(** ** State and exceptions *)

Module Eff.

(** A computation over the world [W]: the world is threaded through, and
    survives a thrown exception, as a [catch] block sees it. *)
Definition M (W A : Type) : Type := W -> Result A * W.

Definition ret {W A} (a : A) : M W A := fun w => (Ok a, w).

Definition bind {W A B} (m : M W A) (k : A -> M W B) : M W B :=
  fun w =>
    match m w with
    | (Ok a, w') => k a w'
    | (Throw e, w') => (Throw e, w')
    end.

Definition throw {W A} (e : JsError) : M W A := fun w => (Throw e, w).

Definition tryCatch {W A} (m : M W A) (handler : JsError -> M W A) : M W A :=
  fun w =>
    match m w with
    | (Ok a, w') => (Ok a, w')
    | (Throw e, w') => handler e w'
    end.

Definition get {W} : M W W := fun w => (Ok w, w).
Definition gets {W A} (f : W -> A) : M W A := fun w => (Ok (f w), w).
Definition modify {W} (f : W -> W) : M W unit := fun w => (Ok tt, f w).

(** The settled promise of a collaborator. *)
Definition await {W A} (r : Result A) : M W A := fun w => (r, w).

(** A collaborator call that either rejects or completes. *)
Definition check {W} (fault : option JsError) : M W unit :=
  fun w => match fault with Some e => (Throw e, w) | None => (Ok tt, w) end.

(** [preserves I m]: the world [m] leaves behind satisfies [I] whenever
    the one it started from did, whether [m] returns or throws. *)
Definition preserves {W A} (I : W -> Prop) (m : M W A) : Prop :=
  forall w, I w -> I (snd (m w)).

Declare Scope eff_scope.
Delimit Scope eff_scope with eff.
Notation "'let!' x ':=' c 'in' k" := (bind c (fun x => k))
  (at level 10, x name, c at level 100, k at level 200) : eff_scope.
Notation "'do!' c 'in' k" := (bind c (fun _ => k))
  (at level 10, c at level 100, k at level 200) : eff_scope.

End Eff.
Export Eff.

(** ** Documents and ledger messages (the part of [@hedera-modules] and of
    the entities that the two blocks touch) *)

Module Hedera.

(** A flat JavaScript object with string-valued properties. *)
Abbreviation JsObject := (gmap string string).

Record VcDocument := {
  vc_issuer : option string;
  vc_subject : JsObject
}.

Record VpDocument := {
  vp_issuer : option string;
  vp_id : string;
  vp_documents : list VcDocument
}.

Record DIDDocument := {
  getDid : string;
  getPrivateKeyString : string;
  getDocument : string
}.

Record Topic := {
  topic_id : string;
  topic_topicId : string
}.

Inductive MessageAction := CreateDID | CreateVC | CreateVP.

Inductive MessageBody :=
| DIDBody (d : DIDDocument)
| VCBody (vc : VcDocument)
| VPBody (vp : VpDocument).

(** [VCMessage], [VPMessage], [DIDMessage] with what the blocks set. *)
Record Message := {
  msg_action : MessageAction;
  msg_document : MessageBody;
  msg_relationships : list string
}.

(** The message as returned by [sendMessage]: [getId], [getTopicId]. *)
Record MessageResult := {
  getId : string;
  getTopicId : string
}.

(** One submission: the operator of the [MessageServer], the topic set
    with [setTopicObject], the message. *)
Record Submission := {
  sub_operator : option string;
  sub_topic : option Topic;
  sub_message : Message
}.

(** A row of the VC collection. *)
Record VcDocumentCollection := {
  rec_policyId : string;
  rec_tag : string;
  rec_type : option string;
  rec_document : VcDocument;
  rec_owner : option string;
  rec_schema : string;
  rec_accounts : option JsObject;
  rec_messageId : option string;
  rec_topicId : option string;
  rec_relationships : list string
}.

Inductive PolicyOutputEventType := RunEvent | RefreshEvent.

Record IAuthUser := {
  did : option string;
  hederaAccountId : option string;
  walletToken : string
}.

Record Schema := {
  schema_iri : string;
  schema_document : string
}.

End Hedera.
Export Hedera.

(** ** The Request block: request-vc-document-block.ts *)

Module RequestVcDocumentBlock.

(** The value of [blockState]: an object whose only property the block
    uses is [active] ([None] is [undefined]). *)
Record BlockState := {
  active : option bool
}.

(** A property of [this.state].  The field is initialised to
    [{ active: true }], so besides the per-actor objects it can hold a
    boolean. *)
Inductive StateVal :=
| Prim (b : bool)
| Obj (o : BlockState).

(** [const state = { data: item }] *)
Record DocState := {
  data : VcDocumentCollection
}.

Record OutputEvent := {
  ev_type : PolicyOutputEventType;
  ev_user : IAuthUser;
  ev_data : option DocState
}.

Record DidDocumentCollection := {
  dd_did : string;
  dd_document : string;
  dd_status : string;
  dd_messageId : string;
  dd_topicId : string
}.

Definition KeyType_KEY : string := "KEY".
Definition DidDocumentStatus_CREATE : string := "CREATE".

(** The block instance's fields ([state], [schema]) and the journals of
    its effects.  [this.state] is a plain object used as a dictionary:
    [state] holds its own properties, and [statePrototype] the object
    that an assignment to its property [__proto__] has made its prototype
    ([None] while the prototype is [Object.prototype]). *)
Record World := {
  state : gmap string StateVal;
  statePrototype : option BlockState;
  schema : option Schema;
  wallet : gmap (string * string * string) string;
  ledger : list Submission;
  didDocuments : list DidDocumentCollection;
  updates : list (BlockState * IAuthUser);
  events : list OutputEvent;
  logs : list string;
  errors : list string;
  entropy : nat
}.

Definition set_state (f : gmap string StateVal -> gmap string StateVal) (w : World) : World :=
  {| state := f (state w); statePrototype := statePrototype w;
     schema := schema w; wallet := wallet w;
     ledger := ledger w; didDocuments := didDocuments w; updates := updates w;
     events := events w; logs := logs w; errors := errors w; entropy := entropy w |}.

Definition set_statePrototype (p : option BlockState) (w : World) : World :=
  {| state := state w; statePrototype := p;
     schema := schema w; wallet := wallet w;
     ledger := ledger w; didDocuments := didDocuments w; updates := updates w;
     events := events w; logs := logs w; errors := errors w; entropy := entropy w |}.

Definition set_schema (s : option Schema) (w : World) : World :=
  {| state := state w; statePrototype := statePrototype w;
     schema := s; wallet := wallet w;
     ledger := ledger w; didDocuments := didDocuments w; updates := updates w;
     events := events w; logs := logs w; errors := errors w; entropy := entropy w |}.

Definition set_wallet (f : gmap (string * string * string) string -> gmap (string * string * string) string)
    (w : World) : World :=
  {| state := state w; statePrototype := statePrototype w;
     schema := schema w; wallet := f (wallet w);
     ledger := ledger w; didDocuments := didDocuments w; updates := updates w;
     events := events w; logs := logs w; errors := errors w; entropy := entropy w |}.

Definition add_submission (m : Submission) (w : World) : World :=
  {| state := state w; statePrototype := statePrototype w;
     schema := schema w; wallet := wallet w;
     ledger := ledger w ++ [m]; didDocuments := didDocuments w; updates := updates w;
     events := events w; logs := logs w; errors := errors w; entropy := entropy w |}.

Definition add_didDocument (d : DidDocumentCollection) (w : World) : World :=
  {| state := state w; statePrototype := statePrototype w;
     schema := schema w; wallet := wallet w;
     ledger := ledger w; didDocuments := didDocuments w ++ [d]; updates := updates w;
     events := events w; logs := logs w; errors := errors w; entropy := entropy w |}.

Definition add_update (u : BlockState * IAuthUser) (w : World) : World :=
  {| state := state w; statePrototype := statePrototype w;
     schema := schema w; wallet := wallet w;
     ledger := ledger w; didDocuments := didDocuments w; updates := updates w ++ [u];
     events := events w; logs := logs w; errors := errors w; entropy := entropy w |}.

Definition add_event (e : OutputEvent) (w : World) : World :=
  {| state := state w; statePrototype := statePrototype w;
     schema := schema w; wallet := wallet w;
     ledger := ledger w; didDocuments := didDocuments w; updates := updates w;
     events := events w ++ [e]; logs := logs w; errors := errors w; entropy := entropy w |}.

Definition add_log (s : string) (w : World) : World :=
  {| state := state w; statePrototype := statePrototype w;
     schema := schema w; wallet := wallet w;
     ledger := ledger w; didDocuments := didDocuments w; updates := updates w;
     events := events w; logs := logs w ++ [s]; errors := errors w; entropy := entropy w |}.

Definition add_error (s : string) (w : World) : World :=
  {| state := state w; statePrototype := statePrototype w;
     schema := schema w; wallet := wallet w;
     ledger := ledger w; didDocuments := didDocuments w; updates := updates w;
     events := events w; logs := logs w; errors := errors w ++ [s]; entropy := entropy w |}.

Definition tick (w : World) : World :=
  {| state := state w; statePrototype := statePrototype w;
     schema := schema w; wallet := wallet w;
     ledger := ledger w; didDocuments := didDocuments w; updates := updates w;
     events := events w; logs := logs w; errors := errors w; entropy := S (entropy w) |}.

(** [res] of [VCHelper.verifySubject]; [error] already as JSON text. *)
Record VerifyResult := {
  ok : bool;
  error_json : string
}.

(** An attached child block; [run] is the validator's verdict. *)
Record Child := {
  blockClassName : string;
  run : IAuthUser -> DocState -> Result bool
}.

Record Options := {
  opt_schema : JsVal;
  opt_presetSchema : JsVal;
  opt_idType : JsVal;
  opt_presetFields : JsVal;
  opt_uiMetaData : JsVal;
  opt_hideFields : JsVal
}.

(** [PolicyComponentsUtils.GetBlockRef(this)] *)
Record BlockRef := {
  uuid : string;
  blockType : string;
  policyId : string;
  tag : string;
  topicId : string;
  options : Options;
  children : list Child
}.

(** What the collaborators answer.  Awaited calls may reject ([Throw]);
    synchronous helpers are total.  [GenerateUUIDv4] and
    [DIDDocument.create] draw from the world's [entropy]. *)
Record Env := {
  GenerateUUIDv4 : nat -> string;
  DIDDocument_create : nat -> string -> DIDDocument;
  findSchema : JsVal -> string -> Result (option Schema);
  getSources : IAuthUser -> Result (list string);
  wallet_getKey_fault : string -> string -> option string -> option JsError;
  wallet_setKey_fault : string -> string -> string -> option JsError;
  PolicyUtils_getRelationships : string -> JsVal -> Result (option VcDocumentCollection);
  PolicyUtils_getTopic : Result Topic;
  sendMessage : list Submission -> Submission -> Result MessageResult;
  saveDidDocument : DidDocumentCollection -> option JsError;
  VcHelper_verifySubject : JsObject -> Result VerifyResult;
  VcHelper_createVC : option string -> option string -> JsObject -> Result VcDocument;
  PolicyUtils_getSubjectId : VcDocumentCollection -> string;
  PolicyUtils_getHederaAccounts : VcDocument -> option string -> Schema -> JsObject;
  PolicyUtils_createVCRecord :
    string -> string -> VcDocument -> JsVal -> option string -> JsObject ->
    option VcDocumentCollection -> VcDocumentCollection
}.

(** [_data] of [setData]: [_data.document] (possibly [undefined]) and
    [_data.ref]. *)
Record RequestData := {
  document : option JsObject;
  ref_id : JsVal
}.

(** The object returned by [getData]. *)
Record BlockData := {
  bd_id : string;
  bd_blockType : string;
  bd_schema : Schema;
  bd_presetSchema : JsVal;
  bd_presetFields : JsVal;
  bd_uiMetaData : JsVal;
  bd_hideFields : JsVal;
  bd_active : bool;
  bd_data : option string
}.

(** [resultsContainer]: the errors recorded so far, as (uuid, message). *)
Abbreviation PolicyValidationResultsContainer := (list (string * string)).

Definition dq : string := String (Ascii.ascii_of_nat 34) EmptyString.

Section Block.

Variable env : Env.
Variable ref : BlockRef.

Local Open Scope eff_scope.

Definition blockActionError (a : ErrArg) : JsError :=
  BlockActionError a (blockType ref) (uuid ref).

(** Property key of [this.state] for a user: [user.did] converted to a
    property name. *)
Definition key_of (user : IAuthUser) : string := show_str (did user).

Definition ref_log (s : string) : M World unit := modify (add_log s).
Definition ref_error (s : string) : M World unit := modify (add_error s).
Definition ref_updateBlock (blockState : BlockState) (user : IAuthUser) : M World unit :=
  modify (add_update (blockState, user)).
Definition ref_triggerEvents (t : PolicyOutputEventType) (user : IAuthUser)
    (d : option DocState) : M World unit :=
  modify (add_event {| ev_type := t; ev_user := user; ev_data := d |}).

(** [getValidators] *)
Definition getValidators : list Child :=
  List.filter (fun child => String.eqb (blockClassName child) "ValidatorBlock")
    (children ref).

(** The loop of [validateDocuments]. *)
Fixpoint runValidators (validators : list Child) (user : IAuthUser) (st : DocState)
    : Result bool :=
  match validators with
  | [] => Ok true
  | validator :: rest =>
      match run validator user st with
      | Ok valid => if negb valid then Ok false else runValidators rest user st
      | Throw e => Throw e
      end
  end.

Definition validateDocuments (user : IAuthUser) (st : DocState) : M World bool :=
  await (runValidators getValidators user st).

(** [this.state.hasOwnProperty(user.did)] looks the method up on
    [this.state] like any other property.  Once the object has an own
    property named [hasOwnProperty] (the entry of a user with that did),
    the call finds that entry instead of the method of [Object.prototype]
    and throws this TypeError. *)
Definition hasOwnProperty_is_not_a_function : string :=
  "this.state.hasOwnProperty is not a function".

(** [blockState.active = ...] where [blockState] is a boolean, as the
    property [active] of the initial state is: the assignment throws in
    strict mode, with this message. *)
Definition cannot_create_property (blockState : bool) : string :=
  "Cannot create property 'active' on boolean '"
    +:+ (if blockState then "true" else "false") +:+ "'".

(** [this.state[key] = blockState] for a [key] that is not an own
    property.  The property is created; but [__proto__] is an accessor of
    [Object.prototype], whose setter makes [blockState] the prototype of
    [this.state] and creates no property. *)
Definition state_assign (key : string) (blockState : BlockState) (w : World) : World :=
  if String.eqb key "__proto__" then set_statePrototype (Some blockState) w
  else set_state <[key := Obj blockState]> w.

(** [changeActive].  In the [else] branch [blockState] is the stored
    object, which the assignment of [active] updates in place. *)
Definition changeActive (user : IAuthUser) (act : bool) : M World unit :=
  let! w := get in
  match state w !! "hasOwnProperty" with
  | Some _ => throw (TypeError hasOwnProperty_is_not_a_function)
  | None =>
      let blockState := {| active := Some act |} in
      match state w !! key_of user with
      | None =>
          do! modify (state_assign (key_of user) blockState) in
          do! ref_updateBlock blockState user in
          ref_triggerEvents RefreshEvent user None
      | Some (Obj _) =>
          do! modify (set_state <[key_of user := Obj blockState]>) in
          do! ref_updateBlock blockState user in
          ref_triggerEvents RefreshEvent user None
      | Some (Prim p) => throw (TypeError (cannot_create_property p))
      end
  end.

(** [getActive] *)
Definition getActive (user : IAuthUser) : M World bool :=
  let! w := get in
  match state w !! "hasOwnProperty" with
  | Some _ => throw (TypeError hasOwnProperty_is_not_a_function)
  | None =>
      match state w !! key_of user with
      | None =>
          do! modify (state_assign (key_of user) {| active := Some true |}) in
          ret true
      | Some (Obj blockState) =>
          match active blockState with
          | None =>
              do! modify (set_state <[key_of user := Obj {| active := Some true |}]>) in
              ret true
          | Some a => ret a
          end
      | Some (Prim p) => throw (TypeError (cannot_create_property p))
      end
  end.

(** [getSchema] *)
Definition getSchema : M World Schema :=
  let! w := get in
  match schema w with
  | Some s => ret s
  | None =>
      let! found := await (findSchema env (opt_schema (options ref)) (topicId ref)) in
      do! modify (set_schema found) in
      match found with
      | Some s => ret s
      | None => throw (blockActionError (Text "Waiting for schema"))
      end
  end.

(** [getData] *)
Definition getData (user : IAuthUser) : M World BlockData :=
  let opts := options ref in
  let! sch := getSchema in
  let! sources := await (getSources env user) in
  let! act := getActive user in
  ret {| bd_id := uuid ref;
         bd_blockType := blockType ref;
         bd_schema := sch;
         bd_presetSchema := opt_presetSchema opts;
         bd_presetFields := opt_presetFields opts;
         bd_uiMetaData := if truthy (opt_uiMetaData opts) then opt_uiMetaData opts else VObj;
         bd_hideFields := if truthy (opt_hideFields opts) then opt_hideFields opts else VObj;
         bd_active := act;
         bd_data := head sources |}.

(** [getRelationships] *)
Definition getRelationships (policy : string) (refId : JsVal)
    : M World (option VcDocumentCollection) :=
  tryCatch
    (await (PolicyUtils_getRelationships env policy refId))
    (fun error =>
       do! ref_error (message error) in
       throw (blockActionError (Text "Invalid relationships"))).

(** [messageServer.setTopicObject(topic).sendMessage(message)] *)
Definition MessageServer_sendMessage (operator : option string) (topic : option Topic)
    (m : Message) : M World MessageResult :=
  let sub := {| sub_operator := operator; sub_topic := topic; sub_message := m |} in
  let! sent := gets ledger in
  let! result := await (sendMessage env sent sub) in
  do! modify (add_submission sub) in
  ret result.

Definition wallet_getKey (token type : string) (key : option string)
    : M World (option string) :=
  do! check (wallet_getKey_fault env token type key) in
  gets (fun w => wallet w !! (token, type, show_str key)).

Definition wallet_setKey (token type key value : string) : M World unit :=
  do! check (wallet_setKey_fault env token type key) in
  modify (set_wallet <[(token, type, key) := value]>).

(** [generateId] *)
Definition generateId (idType : JsVal) (user : IAuthUser)
    (userHederaAccount userHederaKey : option string) : M World (option string) :=
  tryCatch
    (if strict_eq_str idType "UUID" then
       let! n := gets entropy in
       do! modify tick in
       ret (Some (GenerateUUIDv4 env n))
     else if strict_eq_str idType "DID" then
       let! topic := await (PolicyUtils_getTopic env) in
       let! n := gets entropy in
       do! modify tick in
       let didObject := DIDDocument_create env n (topic_topicId topic) in
       let did := getDid didObject in
       let key := getPrivateKeyString didObject in
       let document := getDocument didObject in
       let message :=
         {| msg_action := CreateDID; msg_document := DIDBody didObject;
            msg_relationships := [] |} in
       let! messageResult :=
         MessageServer_sendMessage userHederaAccount (Some topic) message in
       let doc :=
         {| dd_did := did; dd_document := document;
            dd_status := DidDocumentStatus_CREATE;
            dd_messageId := getId messageResult;
            dd_topicId := getTopicId messageResult |} in
       do! check (saveDidDocument env doc) in
       do! modify (add_didDocument doc) in
       do! wallet_setKey (walletToken user) KeyType_KEY did key in
       ret (Some did)
     else if strict_eq_str idType "OWNER" then
       ret (Hedera.did user)
     else
       ret None)
    (fun error =>
       do! ref_error ("generateId: " +:+ to_string idType +:+ " : " +:+ message error) in
       throw (blockActionError (Caught error))).

(** [setData], the statements of the [try] block up to
    [const state = { data: item }]. *)
Definition setData_document (user : IAuthUser) (_data : RequestData) : M World DocState :=
  do! changeActive user false in
  let userHederaAccount := hederaAccountId user in
  let! userHederaKey := wallet_getKey (walletToken user) KeyType_KEY (did user) in
  let document := document _data in
  let! documentRef := getRelationships (policyId ref) (ref_id _data) in
  let credentialSubject := document in
  let schemaIRI := opt_schema (options ref) in
  let idType := opt_idType (options ref) in
  let! sch := getSchema in
  let! id := generateId idType user userHederaAccount userHederaKey in
  match credentialSubject with
  | None =>
      (* the first assignment to a property of [undefined] *)
      throw (TypeError "Cannot set properties of undefined")
  | Some credentialSubject =>
      let credentialSubject :=
        if truthy_str id then <["id" := show_str id]> credentialSubject
        else credentialSubject in
      let credentialSubject :=
        match documentRef with
        | Some r => <["ref" := PolicyUtils_getSubjectId env r]> credentialSubject
        | None => credentialSubject
        end in
      let credentialSubject := <["policyId" := policyId ref]> credentialSubject in
      let! res := await (VcHelper_verifySubject env credentialSubject) in
      if negb (ok res) then throw (blockActionError (Text (error_json res)))
      else
        let! vc := await (VcHelper_createVC env (did user) userHederaKey credentialSubject) in
        let accounts := PolicyUtils_getHederaAccounts env vc userHederaAccount sch in
        let item :=
          PolicyUtils_createVCRecord env (policyId ref) (tag ref) vc
            schemaIRI (did user) accounts documentRef in
        ret {| data := item |}
  end.

(** [setData], the rest of the [try] block. *)
Definition setData_submit (user : IAuthUser) (st : DocState) : M World unit :=
  let! valid := validateDocuments user st in
  if negb valid then throw (blockActionError (Text "Invalid document"))
  else
    do! changeActive user true in
    do! ref_triggerEvents RunEvent user (Some st) in
    ref_triggerEvents RefreshEvent user (Some st).

(** [setData], the [catch] block. *)
Definition setData_catch (user : IAuthUser) (error : JsError) : M World unit :=
  do! ref_error ("setData: " +:+ message error) in
  do! changeActive user true in
  throw (blockActionError (Caught error)).

(** [setData]: the body of the method, before the [@ActionCallback]
    decorator is applied to it. *)
Definition setData (user : IAuthUser) (_data : RequestData) : M World unit :=
  do! ref_log "setData" in
  if negb (truthy_str (did user)) then
    throw (blockActionError (Text "User have no any did"))
  else
    let! act := getActive user in
    if negb act then
      throw (blockActionError (Text "Block not available"))
    else
      tryCatch
        (let! st := setData_document user _data in
         setData_submit user st)
        (setData_catch user).

Definition addBlockError (id msg : string)
    : M PolicyValidationResultsContainer unit :=
  modify (fun container => (container ++ [(id, msg)])%list).

(** [validate] *)
Definition validate : M PolicyValidationResultsContainer unit :=
  tryCatch
    (if negb (truthy (opt_schema (options ref))) then
       addBlockError (uuid ref) ("Option " +:+ dq +:+ "schema" +:+ dq +:+ " does not set")
     else if negb (is_string (opt_schema (options ref))) then
       addBlockError (uuid ref)
         ("Option " +:+ dq +:+ "schema" +:+ dq +:+ " must be a string")
     else
       let! found :=
         await (findSchema env (opt_schema (options ref)) (topicId ref)) in
       match found with
       | None =>
           addBlockError (uuid ref)
             ("Schema with id " +:+ dq +:+ to_string (opt_schema (options ref))
                +:+ dq +:+ " does not exist")
       | Some _ =>
           if truthy (opt_presetSchema (options ref)) then
             let! presetSchema :=
               await (findSchema env (opt_presetSchema (options ref)) (topicId ref)) in
             match presetSchema with
             | None =>
                 addBlockError (uuid ref)
                   ("Schema with id " +:+ dq
                      +:+ to_string (opt_presetSchema (options ref))
                      +:+ dq +:+ " does not exist")
             | Some _ => ret tt
             end
           else ret tt
       end)
    (fun error =>
       addBlockError (uuid ref) ("Unhandled exception " +:+ message error)).

End Block.

End RequestVcDocumentBlock.

(** ** The Mint block: mint-block.ts *)

Module MintBlock.

Inductive DocumentSignature := NEW | VERIFIED | INVALID.

(** An element of [docs]. *)
Record InputDocument := {
  owner : string;
  signature : DocumentSignature;
  document : string;
  messageId : option string;
  topicId : option string;
  accounts : option JsObject
}.

(** [event.data.data]: one document or an array of documents. *)
Inductive EventPayload :=
| One (d : InputDocument)
| Many (ds : list InputDocument).

(** [event.data] *)
Record EventData := {
  data : EventPayload
}.

Record IPolicyEvent := {
  event_data : EventData
}.

Record Token := {
  token_tokenId : string;
  token_decimals : string
}.

(** [root], the policy owner's ledger account. *)
Record Root := {
  root_did : option string;
  root_hederaAccountId : option string;
  root_hederaAccountKey : option string
}.

Record OutputEvent := {
  ev_type : PolicyOutputEventType;
  ev_user : IAuthUser;
  ev_data : EventData
}.

Definition DataTypes_MINT : string := "mint".

(** The record given to [PolicyUtils.saveVP]. *)
Record VpRecord := {
  vpr_hash : string;
  vpr_document : VpDocument;
  vpr_owner : option string;
  vpr_type : string;
  vpr_policyId : string;
  vpr_tag : string;
  vpr_messageId : string;
  vpr_topicId : string
}.

(** The arguments of [PolicyUtils.mint]. *)
Record MintCall := {
  mint_token : Token;
  mint_tokenValue : JsNumber;
  mint_root : Root;
  mint_targetAccountId : string;
  mint_messageId : string
}.

(** Journals of the block's effects. *)
Record World := {
  ledger : list Submission;
  vcRecords : list VcDocumentCollection;
  vpRecords : list VpRecord;
  mints : list MintCall;
  events : list OutputEvent;
  logs : list string;
  errors : list string;
  entropy : nat
}.

Definition add_submission (m : Submission) (w : World) : World :=
  {| ledger := ledger w ++ [m]; vcRecords := vcRecords w; vpRecords := vpRecords w;
     mints := mints w; events := events w; logs := logs w; errors := errors w;
     entropy := entropy w |}.

Definition add_vcRecord (r : VcDocumentCollection) (w : World) : World :=
  {| ledger := ledger w; vcRecords := vcRecords w ++ [r]; vpRecords := vpRecords w;
     mints := mints w; events := events w; logs := logs w; errors := errors w;
     entropy := entropy w |}.

Definition add_vpRecord (r : VpRecord) (w : World) : World :=
  {| ledger := ledger w; vcRecords := vcRecords w; vpRecords := vpRecords w ++ [r];
     mints := mints w; events := events w; logs := logs w; errors := errors w;
     entropy := entropy w |}.

Definition add_mint (c : MintCall) (w : World) : World :=
  {| ledger := ledger w; vcRecords := vcRecords w; vpRecords := vpRecords w;
     mints := mints w ++ [c]; events := events w; logs := logs w; errors := errors w;
     entropy := entropy w |}.

Definition add_event (e : OutputEvent) (w : World) : World :=
  {| ledger := ledger w; vcRecords := vcRecords w; vpRecords := vpRecords w;
     mints := mints w; events := events w ++ [e]; logs := logs w; errors := errors w;
     entropy := entropy w |}.

Definition add_log (s : string) (w : World) : World :=
  {| ledger := ledger w; vcRecords := vcRecords w; vpRecords := vpRecords w;
     mints := mints w; events := events w; logs := logs w ++ [s]; errors := errors w;
     entropy := entropy w |}.

Definition add_error (s : string) (w : World) : World :=
  {| ledger := ledger w; vcRecords := vcRecords w; vpRecords := vpRecords w;
     mints := mints w; events := events w; logs := logs w; errors := errors w ++ [s];
     entropy := entropy w |}.

Definition tick (w : World) : World :=
  {| ledger := ledger w; vcRecords := vcRecords w; vpRecords := vpRecords w;
     mints := mints w; events := events w; logs := logs w; errors := errors w;
     entropy := S (entropy w) |}.

Record Options := {
  opt_tokenId : JsVal;
  opt_rule : JsVal;
  opt_accountType : JsVal;
  opt_accountId : option string
}.

Record BlockRef := {
  uuid : string;
  blockType : string;
  policyId : string;
  tag : string;
  ref_topicId : string;
  policyOwner : string;
  options : Options
}.

(** What the collaborators answer.  Awaited calls may reject; synchronous
    helpers are total. *)
Record Env := {
  GenerateUUIDv4 : nat -> string;
  now_toISOString : string;
  finite_toString : Z -> Z -> string;
  findToken : JsVal -> Result (option Token);
  PolicyUtils_getArray : EventPayload -> list InputDocument;
  getUserById : string -> Result (option IAuthUser);
  getHederaAccount : string -> Result Root;
  VcDocument_fromJsonTree : string -> VcDocument;
  PolicyUtils_aggregate : JsVal -> list VcDocument -> JsNumber;
  PolicyUtils_tokenAmount : Token -> JsNumber -> JsNumber * string;
  PolicyUtils_getSchema : string -> Result Schema;
  SchemaHelper_getContext : Schema -> JsObject;
  VcHelper_createVC : option string -> option string -> JsObject -> Result VcDocument;
  VcHelper_createVP : option string -> option string -> list VcDocument -> string -> Result VpDocument;
  PolicyUtils_getTopicById : string -> Result (option Topic);
  PolicyUtils_getTopic : Root -> IAuthUser -> Result (option Topic);
  sendMessage : list Submission -> Submission -> Result MessageResult;
  getSubjectType : VcDocument -> string;
  PolicyUtils_createVCRecord :
    string -> string -> string -> VcDocument -> option string -> string ->
    string -> string -> list string -> VcDocumentCollection;
  PolicyUtils_updateVCRecord : VcDocumentCollection -> option JsError;
  toCredentialHash : VpDocument -> string;
  PolicyUtils_saveVP : VpRecord -> option JsError;
  PolicyUtils_mint : MintCall -> option JsError
}.

(** The arrays filled by the loop of [runAction]. *)
Record Collected := {
  vcs : list VcDocument;
  vsMessages : list string;
  topicIds : list string;
  accountIds : list (option string)
}.

(** What [runAction] has resolved when it calls [mintProcessing]. *)
Record Resolved := {
  res_token : Token;
  res_vcs : list VcDocument;
  res_vsMessages : list string;
  res_topicId : option string;
  res_root : Root;
  res_docOwner : IAuthUser;
  res_targetAccountId : string
}.

(** [a === b] on values that are a string or [undefined]. *)
Definition same (a b : option string) : bool :=
  match a, b with
  | Some x, Some y => String.eqb x y
  | None, None => true
  | _, _ => false
  end.

Section Block.

Variable env : Env.
Variable ref : BlockRef.

Local Open Scope eff_scope.

Definition blockActionError (a : ErrArg) : JsError :=
  BlockActionError a (blockType ref) (uuid ref).

Definition ref_log (s : string) : M World unit := modify (add_log s).
Definition ref_error (s : string) : M World unit := modify (add_error s).
Definition ref_triggerEvents (t : PolicyOutputEventType) (user : IAuthUser)
    (d : EventData) : M World unit :=
  modify (add_event {| ev_type := t; ev_user := user; ev_data := d |}).

(** Template-literal interpolation of a number. *)
Definition number_to_string (x : JsNumber) : string :=
  match x with
  | NaN => "NaN"
  | PosInfinity => "Infinity"
  | NegInfinity => "-Infinity"
  | Finite m e => finite_toString env m e
  end.

(** [messageServer.setTopicObject(topic).sendMessage(message)] *)
Definition MessageServer_sendMessage (operator : option string) (topic : option Topic)
    (m : Message) : M World MessageResult :=
  let sub := {| sub_operator := operator; sub_topic := topic; sub_message := m |} in
  let! sent := gets ledger in
  let! result := await (sendMessage env sent sub) in
  do! modify (add_submission sub) in
  ret result.

(** [createMintVC] *)
Definition createMintVC (root : Root) (token : Token) (amount : string)
    : M World VcDocument :=
  let! policySchema := await (PolicyUtils_getSchema env (ref_topicId ref)) in
  let vcSubject :=
    <["amount" := amount]>
      (<["tokenId" := token_tokenId token]>
         (<["date" := now_toISOString env]>
            (SchemaHelper_getContext env policySchema))) in
  await (VcHelper_createVC env (root_did root) (root_hederaAccountKey root) vcSubject).

(** [createVP] *)
Definition createVP (root : Root) (id : string) (docs : list VcDocument)
    : M World VpDocument :=
  await (VcHelper_createVP env (root_did root) (root_hederaAccountKey root) docs id).

(** [mintProcessing].  [relationships] is the caller's array; the
    [push] after the first submission is the list extended at its end. *)
Definition mintProcessing (token : Token) (documents : list VcDocument)
    (relationships : list string) (topic_Id : option string) (root : Root)
    (user : IAuthUser) (targetAccountId : string) : M World VpDocument :=
  let! n := gets entropy in
  do! modify tick in
  let id := GenerateUUIDv4 env n in
  let amount := PolicyUtils_aggregate env (opt_rule (options ref)) documents in
  if Number_isNaN amount || negb (Number_isFinite amount) then
    throw (blockActionError (Text ("Invalid token value: " +:+ number_to_string amount)))
  else
    let '(tokenValue, tokenAmount) := PolicyUtils_tokenAmount env token amount in
    let! mintVC := createMintVC root token tokenAmount in
    let vcs := (documents ++ [mintVC])%list in
    let! vp := createVP root id vcs in
    do! ref_log ("Topic Id: " +:+ show_str topic_Id) in
    let! topic :=
      (if truthy_str topic_Id
       then await (PolicyUtils_getTopicById env (show_str topic_Id))
       else await (PolicyUtils_getTopic env root user)) in
    do! ref_log ("Topic Id: " +:+ show_str (topic_id <$> topic)) in
    let vcMessage :=
      {| msg_action := CreateVC; msg_document := VCBody mintVC;
         msg_relationships := relationships |} in
    let! vcMessageResult :=
      MessageServer_sendMessage (root_hederaAccountId root) topic vcMessage in
    let record :=
      PolicyUtils_createVCRecord env (policyId ref) (tag ref) DataTypes_MINT mintVC
        (did user) ("#" +:+ getSubjectType env mintVC)
        (getId vcMessageResult) (getTopicId vcMessageResult) relationships in
    do! check (PolicyUtils_updateVCRecord env record) in
    do! modify (add_vcRecord record) in
    let relationships := (relationships ++ [getId vcMessageResult])%list in
    let vpMessage :=
      {| msg_action := CreateVP; msg_document := VPBody vp;
         msg_relationships := relationships |} in
    let! vpMessageResult :=
      MessageServer_sendMessage (root_hederaAccountId root) topic vpMessage in
    let vpRecord :=
      {| vpr_hash := toCredentialHash env vp;
         vpr_document := vp;
         vpr_owner := did user;
         vpr_type := DataTypes_MINT;
         vpr_policyId := policyId ref;
         vpr_tag := tag ref;
         vpr_messageId := getId vpMessageResult;
         vpr_topicId := getTopicId vpMessageResult |} in
    do! check (PolicyUtils_saveVP env vpRecord) in
    do! modify (add_vpRecord vpRecord) in
    let call :=
      {| mint_token := token; mint_tokenValue := tokenValue; mint_root := root;
         mint_targetAccountId := targetAccountId;
         mint_messageId := getId vpMessageResult |} in
    do! check (PolicyUtils_mint env call) in
    do! modify (add_mint call) in
    ret vp.

(** The [for (const doc of docs)] loop of [runAction]. *)
Fixpoint collect (field : string) (docs : list InputDocument) (acc : Collected)
    : Result Collected :=
  match docs with
  | [] => Ok acc
  | doc :: rest =>
      match signature doc with
      | INVALID => Throw (blockActionError (Text "Invalid VC proof"))
      | _ =>
          let json := VcDocument_fromJsonTree env (document doc) in
          collect field rest
            {| vcs := vcs acc ++ [json];
               vsMessages :=
                 if truthy_str (messageId doc)
                 then vsMessages acc ++ [show_str (messageId doc)]
                 else vsMessages acc;
               topicIds :=
                 if truthy_str (topicId doc)
                 then topicIds acc ++ [show_str (topicId doc)]
                 else topicIds acc;
               accountIds :=
                 match accounts doc with
                 | Some a => accountIds acc ++ [a !! field]
                 | None => accountIds acc
                 end |}
      end
  end.

(** [ref.options.accountId || 'default'] *)
Definition account_field : string :=
  if truthy_str (opt_accountId (options ref))
  then show_str (opt_accountId (options ref))
  else "default".

(** [runAction] up to the call of [mintProcessing]. *)
Definition runAction_resolve (event : IPolicyEvent) : M World Resolved :=
  let! token := await (findToken env (opt_tokenId (options ref))) in
  match token with
  | None => throw (blockActionError (Text "Bad token id"))
  | Some token =>
      let docs := PolicyUtils_getArray env (data (event_data event)) in
      if Nat.eqb (length docs) 0 && truthy_obj (docs !! 0) then
        throw (blockActionError (Text "Bad VC"))
      else
        match docs !! 0 with
        | None =>
            throw (TypeError "Cannot read properties of undefined (reading 'owner')")
        | Some doc0 =>
            let! docOwner := await (getUserById env (owner doc0)) in
            match docOwner with
            | None => throw (blockActionError (Text "Bad User DID"))
            | Some docOwner =>
                let field := account_field in
                let! c :=
                  await (collect field docs
                           {| vcs := []; vsMessages := []; topicIds := [];
                              accountIds := [] |}) in
                let firstAccounts := mjoin (accountIds c !! 0) in
                do! match List.find (fun a => negb (same a firstAccounts))
                            (accountIds c) with
                    | Some a =>
                        if truthy_str a then
                          ref_error
                            ("More than one account found! Transfer made on the first ("
                               +:+ show_str firstAccounts +:+ ")")
                        else ret tt
                    | None => ret tt
                    end in
                let topic_Id := topicIds c !! 0 in
                let targetAccountId :=
                  if truthy_str (opt_accountId (options ref))
                  then firstAccounts
                  else hederaAccountId docOwner in
                if negb (truthy_str targetAccountId) then
                  throw (blockActionError (Text "Token recipient not set"))
                else
                  let! root := await (getHederaAccount env (policyOwner ref)) in
                  ret {| res_token := token;
                         res_vcs := vcs c;
                         res_vsMessages := vsMessages c;
                         res_topicId := topic_Id;
                         res_root := root;
                         res_docOwner := docOwner;
                         res_targetAccountId := show_str targetAccountId |}
            end
        end
  end.

(** [runAction]: the body of the method, before the [@ActionCallback] and
    [@CatchErrors] decorators are applied to it. *)
Definition runAction (event : IPolicyEvent) : M World unit :=
  let! r := runAction_resolve event in
  let! _vp :=
    mintProcessing (res_token r) (res_vcs r) (res_vsMessages r) (res_topicId r)
      (res_root r) (res_docOwner r) (res_targetAccountId r) in
  do! ref_triggerEvents RunEvent (res_docOwner r) (event_data event) in
  ref_triggerEvents RefreshEvent (res_docOwner r) (event_data event).

Definition dq : string := String (Ascii.ascii_of_nat 34) EmptyString.

Definition addBlockError (id msg : string) : M (list (string * string)) unit :=
  modify (fun container => (container ++ [(id, msg)])%list).

(** [const accountType = ['default', 'custom']] *)
Definition accountType_values : list string := ["default"; "custom"].

(** [accountType.indexOf(v) === -1] *)
Definition not_an_accountType (v : JsVal) : bool :=
  negb (existsb (strict_eq_str v) accountType_values).

(** [validate]; the world is [resultsContainer]. *)
Definition validate : M (list (string * string)) unit :=
  tryCatch
    (do! (if negb (truthy (opt_tokenId (options ref))) then
            addBlockError (uuid ref)
              ("Option " +:+ dq +:+ "tokenId" +:+ dq +:+ " does not set")
          else if negb (is_string (opt_tokenId (options ref))) then
            addBlockError (uuid ref)
              ("Option " +:+ dq +:+ "tokenId" +:+ dq +:+ " must be a string")
          else
            let! token := await (findToken env (opt_tokenId (options ref))) in
            match token with
            | None =>
                addBlockError (uuid ref)
                  ("Token with id " +:+ to_string (opt_tokenId (options ref))
                     +:+ " does not exist")
            | Some _ => ret tt
            end) in
     do! (if negb (truthy (opt_rule (options ref))) then
            addBlockError (uuid ref)
              ("Option " +:+ dq +:+ "rule" +:+ dq +:+ " does not set")
          else if negb (is_string (opt_rule (options ref))) then
            addBlockError (uuid ref)
              ("Option " +:+ dq +:+ "rule" +:+ dq +:+ " must be a string")
          else ret tt) in
     do! (if not_an_accountType (opt_accountType (options ref)) then
            addBlockError (uuid ref)
              ("Option " +:+ dq +:+ "accountType" +:+ dq +:+ " must be one of "
                 +:+ String.concat "," accountType_values)
          else ret tt) in
     if strict_eq_str (opt_accountType (options ref)) "custom"
        && negb (truthy_str (opt_accountId (options ref)))
     then
       addBlockError (uuid ref)
         ("Option " +:+ dq +:+ "accountId" +:+ dq +:+ " does not set")
     else ret tt)
    (fun error =>
       addBlockError (uuid ref) ("Unhandled exception " +:+ message error)).

End Block.

End MintBlock.

(** ** Concrete collaborators, used to run the blocks on examples *)

Module RequestSamples.
Import RequestVcDocumentBlock.

Definition alice : IAuthUser :=
  {| did := Some "did:hedera:alice"; hederaAccountId := Some "0.0.1001";
     walletToken := "token-alice" |}.

Definition bob : IAuthUser :=
  {| did := Some "did:hedera:bob"; hederaAccountId := Some "0.0.1002";
     walletToken := "token-bob" |}.

Definition anonymous : IAuthUser :=
  {| did := None; hederaAccountId := None; walletToken := "token-anonymous" |}.

(** Another user without did. *)
Definition visitor : IAuthUser :=
  {| did := None; hederaAccountId := None; walletToken := "token-visitor" |}.

(** A user whose did is the name of the method that the block calls on
    [this.state]. *)
Definition shadow : IAuthUser :=
  {| did := Some "hasOwnProperty"; hederaAccountId := Some "0.0.1003";
     walletToken := "token-shadow" |}.

(** A user whose did is the name of the prototype accessor. *)
Definition proto_user : IAuthUser :=
  {| did := Some "__proto__"; hederaAccountId := Some "0.0.1004";
     walletToken := "token-proto" |}.

Definition a_schema : Schema :=
  {| schema_iri := "#report"; schema_document := "{}" |}.

Definition a_vc (issuer key : option string) (subject : JsObject) : VcDocument :=
  {| vc_issuer := issuer; vc_subject := subject |}.

Definition a_record (policy tg : string) (vc : VcDocument) (sch : JsVal)
    (own : option string) (acc : JsObject) (r : option VcDocumentCollection)
    : VcDocumentCollection :=
  {| rec_policyId := policy; rec_tag := tg; rec_type := Some (to_string sch);
     rec_document := vc; rec_owner := own; rec_schema := to_string sch;
     rec_accounts := Some acc; rec_messageId := None; rec_topicId := None;
     rec_relationships := [] |}.

(** Ways for a collaborator to fail during [setData]. *)
Inductive Fault :=
| WalletDown
| RelationshipsUnresolved
| RepositoryDown
| LedgerDown
| SubjectRejected
| CredentialsDown.

Definition hit (now : option Fault) (f : Fault) : bool :=
  match now, f with
  | Some WalletDown, WalletDown
  | Some RelationshipsUnresolved, RelationshipsUnresolved
  | Some RepositoryDown, RepositoryDown
  | Some LedgerDown, LedgerDown
  | Some SubjectRejected, SubjectRejected
  | Some CredentialsDown, CredentialsDown => true
  | _, _ => false
  end.

(** Collaborators that succeed but for the fault [now]; the repository
    holds [a_schema] under the iri ["#report"] only. *)
Definition env_of (now : option Fault) : Env :=
  {| GenerateUUIDv4 := fun n => "uuid-" +:+ pretty n;
     DIDDocument_create := fun n topic =>
       {| getDid := "did:hedera:new-" +:+ pretty n;
          getPrivateKeyString := "key-" +:+ pretty n;
          getDocument := "{}" |};
     findSchema := fun iri _ =>
       if hit now RepositoryDown then Throw (Failure "repository unavailable")
       else Ok (if strict_eq_str iri "#report" then Some a_schema else None);
     getSources := fun _ => Ok [];
     wallet_getKey_fault := fun _ _ _ =>
       if hit now WalletDown then Some (Failure "wallet unavailable") else None;
     wallet_setKey_fault := fun _ _ _ => None;
     PolicyUtils_getRelationships := fun _ _ =>
       if hit now RelationshipsUnresolved then Throw (Failure "no such document")
       else Ok None;
     PolicyUtils_getTopic := Ok {| topic_id := "root"; topic_topicId := "0.0.7" |};
     sendMessage := fun sent _ =>
       if hit now LedgerDown then Throw (Failure "submission failed")
       else Ok {| getId := "msg-" +:+ pretty (length sent); getTopicId := "0.0.7" |};
     saveDidDocument := fun _ => None;
     VcHelper_verifySubject := fun _ =>
       Ok {| ok := negb (hit now SubjectRejected); error_json := "null" |};
     VcHelper_createVC := fun issuer key subject =>
       if hit now CredentialsDown then Throw (Failure "signing failed")
       else Ok (a_vc issuer key subject);
     PolicyUtils_getSubjectId := fun _ => "subject";
     PolicyUtils_getHederaAccounts := fun _ _ _ => ∅;
     PolicyUtils_createVCRecord := a_record |}.

Definition env : Env := env_of None.

Definition accepting : Child :=
  {| blockClassName := "ValidatorBlock"; run := fun _ _ => Ok true |}.


Definition block (sch preset idType : JsVal) (cs : list Child) : BlockRef :=
  {| uuid := "b-1"; blockType := "requestVcDocumentBlock"; policyId := "p-1";
     tag := "request"; topicId := "0.0.7";
     options :=
       {| opt_schema := sch; opt_presetSchema := preset; opt_idType := idType;
          opt_presetFields := VUndefined; opt_uiMetaData := VUndefined;
          opt_hideFields := VUndefined |};
     children := cs |}.

(** The block as constructed: [state = { active: true }], nothing done. *)
Definition fresh : World :=
  {| state := {["active" := Prim true]}; statePrototype := None;
     schema := None; wallet := ∅; ledger := [];
     didDocuments := []; updates := []; events := []; logs := []; errors := [];
     entropy := 0 |}.

Definition busy_for (u : IAuthUser) : World :=
  set_state <[key_of u := Obj {| active := Some false |}]> fresh.

Definition a_request : RequestData :=
  {| document := Some {["field0" := "42"]}; ref_id := VUndefined |}.


End RequestSamples.


Module MintSamples.
Import MintBlock.

Definition owner_user : IAuthUser :=
  {| did := Some "did:hedera:owner"; hederaAccountId := Some "0.0.2001";
     walletToken := "token-owner" |}.

Definition a_root : Root :=
  {| root_did := Some "did:hedera:root"; root_hederaAccountId := Some "0.0.2";
     root_hederaAccountKey := Some "root-key" |}.

Definition a_token : Token :=
  {| token_tokenId := "0.0.5005"; token_decimals := "2" |}.

Definition a_record (policy tg type : string) (vc : VcDocument) (own : option string)
    (sch msg topic : string) (rels : list string) : VcDocumentCollection :=
  {| rec_policyId := policy; rec_tag := tg; rec_type := Some type;
     rec_document := vc; rec_owner := own; rec_schema := sch;
     rec_accounts := None; rec_messageId := Some msg; rec_topicId := Some topic;
     rec_relationships := rels |}.

(** Collaborators that all succeed; the aggregation rule yields [amount],
    and the ledger answers submission number [n] with the id [ledger_id n]. *)
Definition env_with (amount : JsNumber) (ledger_id : nat -> string) : Env :=
  {| GenerateUUIDv4 := fun n => "uuid-" +:+ pretty n;
     now_toISOString := "2022-06-01T00:00:00.000Z";
     finite_toString := fun m e => pretty m;
     findToken := fun _ => Ok (Some a_token);
     PolicyUtils_getArray := fun p => match p with One d => [d] | Many ds => ds end;
     getUserById := fun _ => Ok (Some owner_user);
     getHederaAccount := fun _ => Ok a_root;
     VcDocument_fromJsonTree := fun json =>
       {| vc_issuer := None; vc_subject := {["json" := json]} |};
     PolicyUtils_aggregate := fun _ _ => amount;
     PolicyUtils_tokenAmount := fun _ x => (x, "1.00");
     PolicyUtils_getSchema := fun _ =>
       Ok {| schema_iri := "#MintToken"; schema_document := "{}" |};
     SchemaHelper_getContext := fun _ => {["type" := "MintToken"]};
     VcHelper_createVC := fun issuer _ subject =>
       Ok {| vc_issuer := issuer; vc_subject := subject |};
     VcHelper_createVP := fun issuer _ docs id =>
       Ok {| vp_issuer := issuer; vp_id := id; vp_documents := docs |};
     PolicyUtils_getTopicById := fun t =>
       Ok (Some {| topic_id := "t-" +:+ t; topic_topicId := t |});
     PolicyUtils_getTopic := fun _ _ =>
       Ok (Some {| topic_id := "t-root"; topic_topicId := "0.0.7" |});
     sendMessage := fun sent _ =>
       Ok {| getId := ledger_id (length sent); getTopicId := "0.0.7" |};
     getSubjectType := fun _ => "MintToken";
     PolicyUtils_createVCRecord := a_record;
     PolicyUtils_updateVCRecord := fun _ => None;
     toCredentialHash := fun vp => "hash-" +:+ vp_id vp;
     PolicyUtils_saveVP := fun _ => None;
     PolicyUtils_mint := fun _ => None |}.

Definition env : Env := env_with (Finite 100 0) (fun n => "msg-" +:+ pretty n).

Definition block (account : option string) : BlockRef :=
  {| uuid := "b-2"; blockType := "mintDocumentBlock"; policyId := "p-1";
     tag := "mint"; ref_topicId := "0.0.7"; policyOwner := "did:hedera:root";
     options :=
       {| opt_tokenId := VStr "0.0.5005"; opt_rule := VStr "field0";
          opt_accountType :=
            VStr (match account with Some _ => "custom" | None => "default" end);
          opt_accountId := account |} |}.

(** An input document with a message id and the given [accounts]. *)
Definition doc (n : nat) (sig : DocumentSignature) (acc : option JsObject)
    : InputDocument :=
  {| owner := "did:hedera:owner"; signature := sig; document := "{}";
     messageId := Some ("prior-" +:+ pretty n); topicId := Some "0.0.7";
     accounts := acc |}.

Definition event_of (ds : list InputDocument) : IPolicyEvent :=
  {| event_data := {| data := Many ds |} |}.

(** Accounts maps: the field [acct] with two values, and without it. *)
Definition X : option JsObject := Some {["acct" := "0.0.9"]}.
Definition Y : option JsObject := Some {["acct" := "0.0.8"]}.

Definition nothing : World :=
  {| ledger := []; vcRecords := []; vpRecords := []; mints := []; events := [];
     logs := []; errors := []; entropy := 0 |}.

End MintSamples.

(** ** Statements taken from the specification *)

Module Contracts.

(** Modelled from the spec: [MessageServer.sendMessage] is not part of the
    sources at hand.  The Ledger Adapter contract reads
    [withTopic(topic).send(envelope) -> {id, topicId}], failing with
    SubmissionFailed otherwise, and a returned message id is concrete:
    it is not the empty string. *)
Definition ledger_returns_concrete_ids (env : MintBlock.Env) : Prop :=
  forall sent sub result,
    MintBlock.sendMessage env sent sub = Ok result -> getId result <> EmptyString.

(** Modelled from the spec: [GenerateUUIDv4] is not part of the sources at
    hand.  The identifiers it generates never repeat: two draws give
    different identifiers. *)
Definition uuids_never_repeat (env : RequestVcDocumentBlock.Env) : Prop :=
  forall n m,
    RequestVcDocumentBlock.GenerateUUIDv4 env n
      = RequestVcDocumentBlock.GenerateUUIDv4 env m -> n = m.


End Contracts.
Export Contracts.

(** ** Views of the world used in the statements *)

Module Views.

(** What the Request block owns or emits: the state object (its own
    properties and its prototype), events sent and state updates
    pushed. *)
Definition request_view (w : RequestVcDocumentBlock.World) :=
  (RequestVcDocumentBlock.state w, RequestVcDocumentBlock.statePrototype w,
   RequestVcDocumentBlock.events w, RequestVcDocumentBlock.updates w).

(** An invariant that looks at nothing but the view. *)
Definition on_request_view (I : RequestVcDocumentBlock.World -> Prop) : Prop :=
  forall w w', request_view w = request_view w' -> I w -> I w'.

(** [this.state.hasOwnProperty] is the method of [Object.prototype]: no
    own property of that name hides it. *)
Definition method_visible (w : RequestVcDocumentBlock.World) : Prop :=
  RequestVcDocumentBlock.state w !! "hasOwnProperty" = None.

(** The block can keep a flag for the user: the method is visible, the
    user's key is not the method's name, and the key does not hold a
    boolean. *)
Definition servable (user : IAuthUser) (w : RequestVcDocumentBlock.World) : Prop :=
  method_visible w /\
  RequestVcDocumentBlock.key_of user <> "hasOwnProperty" /\
  forall p,
    RequestVcDocumentBlock.state w !! RequestVcDocumentBlock.key_of user
      <> Some (RequestVcDocumentBlock.Prim p).

(** The block state that the block reaches for a user: the own property
    under the user's key or, for the key [__proto__] when it is no own
    property, the prototype that an assignment under that key has
    installed. *)
Definition actor_entry (user : IAuthUser) (w : RequestVcDocumentBlock.World)
    : option RequestVcDocumentBlock.StateVal :=
  match RequestVcDocumentBlock.state w !! RequestVcDocumentBlock.key_of user with
  | Some v => Some v
  | None =>
      if String.eqb (RequestVcDocumentBlock.key_of user) "__proto__"
      then RequestVcDocumentBlock.Obj <$> RequestVcDocumentBlock.statePrototype w
      else None
  end.

(** The world in which [blockState] has become the block state of the
    user: assigned under the user's key when the key is no own property,
    written in place otherwise. *)
Definition with_entry (user : IAuthUser) (blockState : RequestVcDocumentBlock.BlockState)
    (w : RequestVcDocumentBlock.World) : RequestVcDocumentBlock.World :=
  match RequestVcDocumentBlock.state w !! RequestVcDocumentBlock.key_of user with
  | None =>
      RequestVcDocumentBlock.state_assign (RequestVcDocumentBlock.key_of user) blockState w
  | Some _ =>
      RequestVcDocumentBlock.set_state
        <[RequestVcDocumentBlock.key_of user := RequestVcDocumentBlock.Obj blockState]> w
  end.

(** The state updates that a call of [setData] pushes when it enters
    Busy and leaves it. *)
Definition busy_then_active (user : IAuthUser)
    : list (RequestVcDocumentBlock.BlockState * IAuthUser) :=
  [({| RequestVcDocumentBlock.active := Some false |}, user);
   ({| RequestVcDocumentBlock.active := Some true |}, user)].

(** The Refresh event that [changeActive] triggers. *)
Definition refresh (user : IAuthUser) : RequestVcDocumentBlock.OutputEvent :=
  {| RequestVcDocumentBlock.ev_type := RefreshEvent;
     RequestVcDocumentBlock.ev_user := user;
     RequestVcDocumentBlock.ev_data := None |}.

(** The external effects of the Mint block: submissions, records, mint
    calls and output events. *)
Definition mint_effects (w : MintBlock.World) :=
  (MintBlock.ledger w, MintBlock.vcRecords w, MintBlock.vpRecords w,
   MintBlock.mints w, MintBlock.events w).

(** The two submissions of [mintProcessing]: the VC message with the
    caller's relationships, and the VP message with the relationships
    extended by the id that the VC submission returned. *)
Definition vc_submission (root : MintBlock.Root) (topic : option Topic)
    (mintVC : VcDocument) (relationships : list string) : Submission :=
  {| sub_operator := MintBlock.root_hederaAccountId root; sub_topic := topic;
     sub_message :=
       {| msg_action := CreateVC; msg_document := VCBody mintVC;
          msg_relationships := relationships |} |}.

Definition vp_submission (root : MintBlock.Root) (topic : option Topic)
    (vp : VpDocument) (relationships : list string) (vcMessageId : string)
    : Submission :=
  {| sub_operator := MintBlock.root_hederaAccountId root; sub_topic := topic;
     sub_message :=
       {| msg_action := CreateVP; msg_document := VPBody vp;
          msg_relationships := relationships ++ [vcMessageId] |} |}.

(** The values of the account field in the input documents that carry an
    [accounts] map, in document order ([None] where the map lacks the
    field). *)
Definition account_values (field : string) (docs : list MintBlock.InputDocument)
    : list (option string) :=
  omap (fun d => (fun a : JsObject => a !! field) <$> MintBlock.accounts d) docs.

(** The warning of [runAction] about accounts that differ. *)
Definition account_warning (first : option string) : string :=
  "More than one account found! Transfer made on the first ("
    +:+ show_str first +:+ ")".

(** The prior message ids of the input documents. *)
Definition prior_ids (docs : list MintBlock.InputDocument) : list string :=
  omap (fun d => if truthy_str (MintBlock.messageId d) then MintBlock.messageId d
                 else None) docs.

End Views.
Export Views.

(** ** Further views, for the properties of the remaining code *)

Module MoreViews.

(** The Run event and the Refresh event that [setData] triggers with the
    document state. *)
Definition run_with (user : IAuthUser) (st : RequestVcDocumentBlock.DocState)
    : RequestVcDocumentBlock.OutputEvent :=
  {| RequestVcDocumentBlock.ev_type := RunEvent;
     RequestVcDocumentBlock.ev_user := user;
     RequestVcDocumentBlock.ev_data := Some st |}.

Definition refresh_with (user : IAuthUser) (st : RequestVcDocumentBlock.DocState)
    : RequestVcDocumentBlock.OutputEvent :=
  {| RequestVcDocumentBlock.ev_type := RefreshEvent;
     RequestVcDocumentBlock.ev_user := user;
     RequestVcDocumentBlock.ev_data := Some st |}.

(** The options of a Request block that [validate] has nothing to say
    about: [schema] is a non-empty string naming a schema of the
    repository, and [presetSchema], when set, names one too. *)
Definition request_options_valid (env : RequestVcDocumentBlock.Env)
    (ref : RequestVcDocumentBlock.BlockRef) : Prop :=
  let o := RequestVcDocumentBlock.options ref in
  truthy (RequestVcDocumentBlock.opt_schema o) = true /\
  is_string (RequestVcDocumentBlock.opt_schema o) = true /\
  (exists s,
     RequestVcDocumentBlock.findSchema env (RequestVcDocumentBlock.opt_schema o)
       (RequestVcDocumentBlock.topicId ref) = Ok (Some s)) /\
  (truthy (RequestVcDocumentBlock.opt_presetSchema o) = true ->
   exists s,
     RequestVcDocumentBlock.findSchema env (RequestVcDocumentBlock.opt_presetSchema o)
       (RequestVcDocumentBlock.topicId ref) = Ok (Some s)).

(** The options of a Mint block that [validate] has nothing to say about. *)
Definition mint_options_valid (env : MintBlock.Env) (ref : MintBlock.BlockRef) : Prop :=
  let o := MintBlock.options ref in
  truthy (MintBlock.opt_tokenId o) = true /\
  is_string (MintBlock.opt_tokenId o) = true /\
  (exists t, MintBlock.findToken env (MintBlock.opt_tokenId o) = Ok (Some t)) /\
  truthy (MintBlock.opt_rule o) = true /\
  is_string (MintBlock.opt_rule o) = true /\
  (MintBlock.opt_accountType o = VStr "default" \/
   MintBlock.opt_accountType o = VStr "custom" /\
   truthy_str (MintBlock.opt_accountId o) = true).

(** The credential subject that [createMintVC] builds: the context of
    the policy's mint schema, overwritten with [date], [tokenId] and
    [amount]. *)
Definition mint_subject (env : MintBlock.Env) (policySchema : Schema)
    (token : MintBlock.Token) (amount : string) : JsObject :=
  <["amount" := amount]>
    (<["tokenId" := MintBlock.token_tokenId token]>
       (<["date" := MintBlock.now_toISOString env]>
          (MintBlock.SchemaHelper_getContext env policySchema))).

(** The topic ids of the input documents. *)
Definition topic_ids (docs : list MintBlock.InputDocument) : list string :=
  omap (fun d => if truthy_str (MintBlock.topicId d) then MintBlock.topicId d
                 else None) docs.

(** The output events of the Mint block. *)
Definition mint_event (t : PolicyOutputEventType) (user : IAuthUser)
    (d : MintBlock.EventData) : MintBlock.OutputEvent :=
  {| MintBlock.ev_type := t; MintBlock.ev_user := user; MintBlock.ev_data := d |}.

End MoreViews.
Export MoreViews.

(** ** More concrete collaborators *)

Module MoreSamples.

(** A user whose did is the key that the initial state gives to its
    boolean. *)
Definition active_user : IAuthUser :=
  {| did := Some "active"; hederaAccountId := None; walletToken := "token-x" |}.

(** The collaborators of [RequestSamples.env], with a repository that
    refuses DID documents. *)
Definition request_env_refusing_did : RequestVcDocumentBlock.Env :=
  let e := RequestSamples.env in
  {| RequestVcDocumentBlock.GenerateUUIDv4 := RequestVcDocumentBlock.GenerateUUIDv4 e;
     RequestVcDocumentBlock.DIDDocument_create :=
       RequestVcDocumentBlock.DIDDocument_create e;
     RequestVcDocumentBlock.findSchema := RequestVcDocumentBlock.findSchema e;
     RequestVcDocumentBlock.getSources := RequestVcDocumentBlock.getSources e;
     RequestVcDocumentBlock.wallet_getKey_fault :=
       RequestVcDocumentBlock.wallet_getKey_fault e;
     RequestVcDocumentBlock.wallet_setKey_fault :=
       RequestVcDocumentBlock.wallet_setKey_fault e;
     RequestVcDocumentBlock.PolicyUtils_getRelationships :=
       RequestVcDocumentBlock.PolicyUtils_getRelationships e;
     RequestVcDocumentBlock.PolicyUtils_getTopic :=
       RequestVcDocumentBlock.PolicyUtils_getTopic e;
     RequestVcDocumentBlock.sendMessage := RequestVcDocumentBlock.sendMessage e;
     RequestVcDocumentBlock.saveDidDocument := fun _ => Some (Failure "write refused");
     RequestVcDocumentBlock.VcHelper_verifySubject :=
       RequestVcDocumentBlock.VcHelper_verifySubject e;
     RequestVcDocumentBlock.VcHelper_createVC :=
       RequestVcDocumentBlock.VcHelper_createVC e;
     RequestVcDocumentBlock.PolicyUtils_getSubjectId :=
       RequestVcDocumentBlock.PolicyUtils_getSubjectId e;
     RequestVcDocumentBlock.PolicyUtils_getHederaAccounts :=
       RequestVcDocumentBlock.PolicyUtils_getHederaAccounts e;
     RequestVcDocumentBlock.PolicyUtils_createVCRecord :=
       RequestVcDocumentBlock.PolicyUtils_createVCRecord e |}.

(** The collaborators of [RequestSamples.env], with a repository that
    holds no schema yet. *)
Definition request_env_without_schemas : RequestVcDocumentBlock.Env :=
  let e := RequestSamples.env in
  {| RequestVcDocumentBlock.GenerateUUIDv4 := RequestVcDocumentBlock.GenerateUUIDv4 e;
     RequestVcDocumentBlock.DIDDocument_create :=
       RequestVcDocumentBlock.DIDDocument_create e;
     RequestVcDocumentBlock.findSchema := fun _ _ => Ok None;
     RequestVcDocumentBlock.getSources := RequestVcDocumentBlock.getSources e;
     RequestVcDocumentBlock.wallet_getKey_fault :=
       RequestVcDocumentBlock.wallet_getKey_fault e;
     RequestVcDocumentBlock.wallet_setKey_fault :=
       RequestVcDocumentBlock.wallet_setKey_fault e;
     RequestVcDocumentBlock.PolicyUtils_getRelationships :=
       RequestVcDocumentBlock.PolicyUtils_getRelationships e;
     RequestVcDocumentBlock.PolicyUtils_getTopic :=
       RequestVcDocumentBlock.PolicyUtils_getTopic e;
     RequestVcDocumentBlock.sendMessage := RequestVcDocumentBlock.sendMessage e;
     RequestVcDocumentBlock.saveDidDocument :=
       RequestVcDocumentBlock.saveDidDocument e;
     RequestVcDocumentBlock.VcHelper_verifySubject :=
       RequestVcDocumentBlock.VcHelper_verifySubject e;
     RequestVcDocumentBlock.VcHelper_createVC :=
       RequestVcDocumentBlock.VcHelper_createVC e;
     RequestVcDocumentBlock.PolicyUtils_getSubjectId :=
       RequestVcDocumentBlock.PolicyUtils_getSubjectId e;
     RequestVcDocumentBlock.PolicyUtils_getHederaAccounts :=
       RequestVcDocumentBlock.PolicyUtils_getHederaAccounts e;
     RequestVcDocumentBlock.PolicyUtils_createVCRecord :=
       RequestVcDocumentBlock.PolicyUtils_createVCRecord e |}.

(** The Request block used in the examples. *)
Definition request_block : RequestVcDocumentBlock.BlockRef :=
  RequestSamples.block (VStr "#report") VUndefined (VStr "UUID")
    [RequestSamples.accepting].


(** A child that is not a validator, and would reject. *)
Definition bystander : RequestVcDocumentBlock.Child :=
  {| RequestVcDocumentBlock.blockClassName := "InformationBlock";
     RequestVcDocumentBlock.run := fun _ _ => Ok false |}.

(** The collaborators of [MintSamples.env], with a ledger that accepts one
    message and then no more, and a token repository that holds the token
    ["0.0.5005"] only and fails on the id ["down"]. *)
Definition mint_env_one_message : MintBlock.Env :=
  let e := MintSamples.env in
  {| MintBlock.GenerateUUIDv4 := MintBlock.GenerateUUIDv4 e;
     MintBlock.now_toISOString := MintBlock.now_toISOString e;
     MintBlock.finite_toString := MintBlock.finite_toString e;
     MintBlock.findToken := fun id =>
       if strict_eq_str id "down" then Throw (Failure "repository unavailable")
       else if strict_eq_str id "0.0.5005" then Ok (Some MintSamples.a_token)
       else Ok None;
     MintBlock.PolicyUtils_getArray := MintBlock.PolicyUtils_getArray e;
     MintBlock.getUserById := fun id =>
       if String.eqb id "did:hedera:owner" then Ok (Some MintSamples.owner_user)
       else Ok None;
     MintBlock.getHederaAccount := MintBlock.getHederaAccount e;
     MintBlock.VcDocument_fromJsonTree := MintBlock.VcDocument_fromJsonTree e;
     MintBlock.PolicyUtils_aggregate := MintBlock.PolicyUtils_aggregate e;
     MintBlock.PolicyUtils_tokenAmount := MintBlock.PolicyUtils_tokenAmount e;
     MintBlock.PolicyUtils_getSchema := MintBlock.PolicyUtils_getSchema e;
     MintBlock.SchemaHelper_getContext := MintBlock.SchemaHelper_getContext e;
     MintBlock.VcHelper_createVC := MintBlock.VcHelper_createVC e;
     MintBlock.VcHelper_createVP := MintBlock.VcHelper_createVP e;
     MintBlock.PolicyUtils_getTopicById := MintBlock.PolicyUtils_getTopicById e;
     MintBlock.PolicyUtils_getTopic := MintBlock.PolicyUtils_getTopic e;
     MintBlock.sendMessage := fun sent _ =>
       match sent with
       | [] => Ok {| getId := "msg-0"; getTopicId := "0.0.7" |}
       | _ => Throw (Failure "submission failed")
       end;
     MintBlock.getSubjectType := MintBlock.getSubjectType e;
     MintBlock.PolicyUtils_createVCRecord := MintBlock.PolicyUtils_createVCRecord e;
     MintBlock.PolicyUtils_updateVCRecord := MintBlock.PolicyUtils_updateVCRecord e;
     MintBlock.toCredentialHash := MintBlock.toCredentialHash e;
     MintBlock.PolicyUtils_saveVP := MintBlock.PolicyUtils_saveVP e;
     MintBlock.PolicyUtils_mint := MintBlock.PolicyUtils_mint e |}.

(** A Mint block with the given options. *)
Definition mint_block (tokenId rule accountType : JsVal) (accountId : option string)
    : MintBlock.BlockRef :=
  {| MintBlock.uuid := "b-2"; MintBlock.blockType := "mintDocumentBlock";
     MintBlock.policyId := "p-1"; MintBlock.tag := "mint";
     MintBlock.ref_topicId := "0.0.7"; MintBlock.policyOwner := "did:hedera:root";
     MintBlock.options :=
       {| MintBlock.opt_tokenId := tokenId; MintBlock.opt_rule := rule;
          MintBlock.opt_accountType := accountType;
          MintBlock.opt_accountId := accountId |} |}.

(** An input document of an owner nobody knows. *)
Definition orphan : MintBlock.InputDocument :=
  {| MintBlock.owner := "did:hedera:nobody"; MintBlock.signature := MintBlock.INVALID;
     MintBlock.document := "{}"; MintBlock.messageId := None;
     MintBlock.topicId := None; MintBlock.accounts := None |}.

End MoreSamples.
Export MoreSamples.

(** ** Invariants of computations *)

Module EffFacts.

Section Preserves.

Context {W : Type}.

Variable I : W -> Prop.

Lemma preserves_ret {A} (a : A) : preserves I (ret a).
Proof. intros w Hw. exact Hw. Qed.

Lemma preserves_throw {A} (e : JsError) : preserves I (@throw W A e).
Proof. intros w Hw. exact Hw. Qed.

Lemma preserves_await {A} (r : Result A) : preserves I (await r).
Proof. intros w Hw. exact Hw. Qed.

Lemma preserves_check (f : option JsError) : preserves I (check f).
Proof. intros w Hw. unfold check. destruct f; exact Hw. Qed.

Lemma preserves_get : preserves I get.
Proof. intros w Hw. exact Hw. Qed.

Lemma preserves_gets {A} (f : W -> A) : preserves I (gets f).
Proof. intros w Hw. exact Hw. Qed.

Lemma preserves_modify (f : W -> W) :
  (forall w, I w -> I (f w)) -> preserves I (modify f).
Proof. intros Hf w Hw. apply Hf, Hw. Qed.

Lemma preserves_bind {A B} (m : M W A) (k : A -> M W B) :
  preserves I m -> (forall a, preserves I (k a)) -> preserves I (bind m k).
Proof.
  intros Hm Hk w Hw. unfold bind.
  specialize (Hm w Hw). destruct (m w) as [[a | e] w1]; simpl in *.
  - apply Hk, Hm.
  - exact Hm.
Qed.

Lemma preserves_tryCatch {A} (m : M W A) (h : JsError -> M W A) :
  preserves I m -> (forall e, preserves I (h e)) -> preserves I (tryCatch m h).
Proof.
  intros Hm Hh w Hw. unfold tryCatch.
  specialize (Hm w Hw). destruct (m w) as [[a | e] w1]; simpl in *.
  - exact Hm.
  - apply Hh, Hm.
Qed.

End Preserves.

(** What a sequence did, from its outcome. *)
Lemma bind_Ok {W A B} (m : M W A) (k : A -> M W B) w b w' :
  bind m k w = (Ok b, w') ->
  exists a w1, m w = (Ok a, w1) /\ k a w1 = (Ok b, w').
Proof.
  unfold bind. destruct (m w) as [[a | e] w1]; intros H.
  - exists a, w1. split; [reflexivity | exact H].
  - discriminate H.
Qed.

Lemma bind_Throw {W A B} (m : M W A) (k : A -> M W B) w e w' :
  bind m k w = (Throw e, w') ->
  m w = (Throw e, w') \/ exists a w1, m w = (Ok a, w1) /\ k a w1 = (Throw e, w').
Proof.
  unfold bind. destruct (m w) as [[a | e1] w1]; intros H.
  - right. exists a, w1. split; [reflexivity | exact H].
  - left. inversion H; subst. reflexivity.
Qed.

Create HintDb frame discriminated.

#[export] Hint Resolve preserves_ret preserves_throw preserves_await preserves_check
  preserves_get preserves_gets : frame.

(** Walks down a computation; the [modify] steps are left to the caller. *)
Ltac frame_step :=
  lazymatch goal with
  | |- preserves _ (bind _ _) => apply preserves_bind; [ | intros ? ]
  | |- preserves _ (tryCatch _ _) => apply preserves_tryCatch; [ | intros ? ]
  | |- preserves _ (modify _) => apply preserves_modify; intros ? ?
  | |- preserves _ (if ?b then _ else _) => destruct b
  | |- preserves _ (match ?x with _ => _ end) => destruct x
  | |- preserves _ _ => solve [ auto with frame ]
  end.

Ltac frame := repeat frame_step.

End EffFacts.
Export EffFacts.

(** ** The Request block: facts *)

Module RequestFacts.
Import RequestVcDocumentBlock.

Ltac by_view HI :=
  first [ assumption | eapply HI; [ | eassumption ]; reflexivity ].

(** Opens [changeActive] or [getActive] on the world [w] and splits on
    what [this.state] holds: the method hidden or not, and under the
    user's key a boolean, a block state with or without flag, or
    nothing, the key then being [__proto__] or not. *)
Ltac state_cases user w :=
  unfold changeActive, getActive, state_assign, bind, get, modify, ret, throw,
    ref_updateBlock, ref_triggerEvents;
  simpl;
  destruct (state w !! "hasOwnProperty") as [? | ] eqn:?;
    [ | destruct (state w !! key_of user) as [[? | [[? | ]]] | ] eqn:?;
        [ | | | destruct (String.eqb (key_of user) "__proto__") eqn:? ] ];
  simpl.

Section Frame.

Variable env : Env.
Variable ref : BlockRef.

(** Everything [setData] calls besides [changeActive], [getActive] and
    [triggerEvents] leaves the view alone. *)
Section ViewInvariant.

Variable I : World -> Prop.
Hypothesis HI : on_request_view I.

Lemma wallet_getKey_frame token type key :
  preserves I (wallet_getKey env token type key).
Proof. unfold wallet_getKey. frame; by_view HI. Qed.

Lemma getRelationships_frame policy refId :
  preserves I (getRelationships env ref policy refId).
Proof. unfold getRelationships, ref_error. frame; by_view HI. Qed.

Lemma getSchema_frame : preserves I (getSchema env ref).
Proof. unfold getSchema. frame; by_view HI. Qed.

Lemma generateId_frame idType user account key :
  preserves I (generateId env ref idType user account key).
Proof.
  unfold generateId, MessageServer_sendMessage, wallet_setKey, ref_error.
  frame; by_view HI.
Qed.

Lemma validateDocuments_frame user st :
  preserves I (validateDocuments ref user st).
Proof. unfold validateDocuments. frame. Qed.

Variable user : IAuthUser.
Hypothesis Hchange : forall b, preserves I (changeActive user b).
Hypothesis Hget : preserves I (getActive user).
Hypothesis Hevent : forall e w, I w -> I (add_event e w).

(** [setData_document], from what [changeActive user false] establishes. *)
Lemma setData_document_post (P : World -> Prop) _data w :
  (forall w, P w -> I (snd (changeActive user false w))) ->
  P w -> I (snd (setData_document env ref user _data w)).
Proof.
  intros Hbusy Hw. unfold setData_document. unfold bind at 1.
  specialize (Hbusy w Hw).
  destruct (changeActive user false w) as [[[] | e] wa]; simpl in Hbusy;
    [ | exact Hbusy ].
  match goal with
  | |- I (snd (?m wa)) => cut (preserves I m); [ intros Hm; exact (Hm wa Hbusy) | ]
  end.
  apply preserves_bind; [ apply wallet_getKey_frame | intros key ].
  apply preserves_bind; [ apply getRelationships_frame | intros documentRef ].
  apply preserves_bind; [ apply getSchema_frame | intros sch ].
  apply preserves_bind; [ apply generateId_frame | intros id ].
  frame.
Qed.

Lemma setData_document_preserves _data :
  preserves I (setData_document env ref user _data).
Proof.
  intros w Hw. apply (setData_document_post I); [ | exact Hw ].
  intros w1 Hw1. apply (Hchange false), Hw1.
Qed.

Lemma setData_submit_preserves st :
  preserves I (setData_submit ref user st).
Proof.
  unfold setData_submit.
  apply preserves_bind; [ apply validateDocuments_frame | intros valid ].
  destruct (negb valid); [ apply preserves_throw | ].
  apply preserves_bind; [ apply Hchange | intros _ ].
  unfold ref_triggerEvents. frame; apply Hevent; assumption.
Qed.

Lemma setData_catch_preserves error :
  preserves I (setData_catch ref user error).
Proof.
  unfold setData_catch, ref_error.
  apply preserves_bind; [ frame; by_view HI | intros _ ].
  apply preserves_bind; [ apply Hchange | intros _ ].
  apply preserves_throw.
Qed.

Lemma setData_preserves _data :
  preserves I (setData env ref user _data).
Proof.
  unfold setData, ref_log.
  apply preserves_bind; [ frame; by_view HI | intros _ ].
  destruct (negb (truthy_str (did user))); [ apply preserves_throw | ].
  apply preserves_bind; [ apply Hget | intros act ].
  destruct (negb act); [ apply preserves_throw | ].
  apply preserves_tryCatch.
  - apply preserves_bind; [ apply setData_document_preserves | intros st ].
    apply setData_submit_preserves.
  - intros error. apply setData_catch_preserves.
Qed.

End ViewInvariant.

End Frame.

End RequestFacts.

Module RequestTheorems.
Import RequestVcDocumentBlock RequestFacts.

Section Block.

Variable env : Env.
Variable ref : BlockRef.

(** Whether a user can be served depends on the own properties of
    [this.state] only. *)
Lemma servable_state user w w' :
  state w = state w' -> servable user w -> servable user w'.
Proof.
  intros Hs (Hm & Hk & Hp). unfold servable, method_visible in *.
  rewrite <- Hs. auto.
Qed.

Lemma servable_view user : on_request_view (servable user).
Proof.
  intros w w' Hv. unfold request_view in Hv. injection Hv as Hs _ _ _.
  apply servable_state, Hs.
Qed.

(** [changeActive] leaves the own properties of [this.state] alone (it
    throws, or the key is [__proto__]), or writes the user's entry. *)
Lemma changeActive_state user b w :
  state (snd (changeActive user b w)) = state w \/
  state (snd (changeActive user b w))
    = <[key_of user := Obj {| active := Some b |}]> (state w).
Proof. state_cases user w; auto. Qed.

Lemma getActive_state user w :
  state (snd (getActive user w)) = state w \/
  state (snd (getActive user w))
    = <[key_of user := Obj {| active := Some true |}]> (state w).
Proof. state_cases user w; auto. Qed.

(** The prototype is replaced under the key [__proto__] only. *)
Lemma changeActive_prototype user b w :
  key_of user <> "__proto__" ->
  statePrototype (snd (changeActive user b w)) = statePrototype w.
Proof.
  intros Hne. state_cases user w; try reflexivity.
  elim Hne. apply String.eqb_eq. assumption.
Qed.

Lemma getActive_prototype user w :
  key_of user <> "__proto__" ->
  statePrototype (snd (getActive user w)) = statePrototype w.
Proof.
  intros Hne. state_cases user w; try reflexivity.
  elim Hne. apply String.eqb_eq. assumption.
Qed.

(** The own property under another key is out of reach of both. *)
Lemma changeActive_other user b k w :
  key_of user <> k ->
  state (snd (changeActive user b w)) !! k = state w !! k.
Proof.
  intros Hne. destruct (changeActive_state user b w) as [-> | ->];
    [ reflexivity | apply lookup_insert_ne, Hne ].
Qed.

Lemma getActive_other user k w :
  key_of user <> k ->
  state (snd (getActive user w)) !! k = state w !! k.
Proof.
  intros Hne. destruct (getActive_state user w) as [-> | ->];
    [ reflexivity | apply lookup_insert_ne, Hne ].
Qed.

(** So is the block state of a user with another key. *)
Lemma actor_entry_frame a' w w' :
  state w' !! key_of a' = state w !! key_of a' ->
  (key_of a' = "__proto__" -> statePrototype w' = statePrototype w) ->
  actor_entry a' w' = actor_entry a' w.
Proof.
  intros Hs Hp. unfold actor_entry. rewrite Hs.
  destruct (state w !! key_of a'); [ reflexivity | ].
  destruct (String.eqb (key_of a') "__proto__") eqn:Q; [ | reflexivity ].
  apply String.eqb_eq in Q. rewrite (Hp Q). reflexivity.
Qed.

Lemma changeActive_entry_other a a' b w :
  key_of a <> key_of a' ->
  actor_entry a' (snd (changeActive a b w)) = actor_entry a' w.
Proof.
  intros Hne. apply actor_entry_frame.
  - apply changeActive_other, Hne.
  - intros Q. apply changeActive_prototype. congruence.
Qed.

Lemma getActive_entry_other a a' w :
  key_of a <> key_of a' ->
  actor_entry a' (snd (getActive a w)) = actor_entry a' w.
Proof.
  intros Hne. apply actor_entry_frame.
  - apply getActive_other, Hne.
  - intros Q. apply getActive_prototype. congruence.
Qed.

(** [getActive] answers from the method lookup and the user's own
    property. *)
Lemma getActive_reads_own_entry user w1 w2 :
  state w1 !! "hasOwnProperty" = state w2 !! "hasOwnProperty" ->
  state w1 !! key_of user = state w2 !! key_of user ->
  fst (getActive user w1) = fst (getActive user w2).
Proof.
  intros Hm H. unfold getActive, bind, get. simpl. rewrite Hm, H.
  destruct (state w2 !! "hasOwnProperty"); [ reflexivity | ].
  destruct (state w2 !! key_of user) as [[p | [[a0 | ]]] | ]; reflexivity.
Qed.

(** [getData] answers from the schema cache, the method lookup and the
    user's own property. *)
Lemma getData_reads_own_entry user w1 w2 :
  schema w1 = schema w2 ->
  state w1 !! "hasOwnProperty" = state w2 !! "hasOwnProperty" ->
  state w1 !! key_of user = state w2 !! key_of user ->
  fst (getData env ref user w1) = fst (getData env ref user w2).
Proof.
  intros Hs Hm H.
  assert (Hg : forall s1 s2, fst (getActive user (set_schema s1 w1))
                             = fst (getActive user (set_schema s2 w2)))
    by (intros s1 s2; apply getActive_reads_own_entry; assumption).
  pose proof (getActive_reads_own_entry user w1 w2 Hm H) as Hg0.
  unfold getData, getSchema, bind, get, await, modify, ret, throw.
  simpl. rewrite Hs.
  destruct (schema w2) as [s | ]; simpl.
  - destruct (getSources env user); simpl; [ | reflexivity ].
    destruct (getActive user w1) as [[a1 | e1] u1], (getActive user w2) as [[a2 | e2] u2];
      simpl in Hg0; inversion Hg0; reflexivity.
  - destruct (findSchema env _ _) as [[s | ] | e]; simpl; try reflexivity.
    destruct (getSources env user); simpl; [ | reflexivity ].
    specialize (Hg (Some s) (Some s)).
    destruct (getActive user (set_schema (Some s) w1)) as [[a1 | e1] u1],
      (getActive user (set_schema (Some s) w2)) as [[a2 | e2] u2];
      simpl in Hg; inversion Hg; reflexivity.
Qed.

Lemma changeActive_schema user b w :
  schema (snd (changeActive user b w)) = schema w.
Proof. state_cases user w; reflexivity. Qed.

(** Once the method is hidden, [changeActive] and [getActive] throw for
    every user and change nothing. *)
Lemma changeActive_shadowed user b w :
  state w !! "hasOwnProperty" <> None ->
  changeActive user b w = (Throw (TypeError hasOwnProperty_is_not_a_function), w).
Proof.
  intros Hsh. unfold changeActive, bind, get. simpl.
  destruct (state w !! "hasOwnProperty"); [ reflexivity | elim Hsh; reflexivity ].
Qed.

Lemma getActive_shadowed user w :
  state w !! "hasOwnProperty" <> None ->
  getActive user w = (Throw (TypeError hasOwnProperty_is_not_a_function), w).
Proof.
  intros Hsh. unfold getActive, bind, get. simpl.
  destruct (state w !! "hasOwnProperty"); [ reflexivity | elim Hsh; reflexivity ].
Qed.

(** What [with_entry] changes. *)
Lemma with_entry_servable user o w :
  servable user w -> servable user (with_entry user o w).
Proof.
  intros (Hm & Hk & Hp). unfold servable, method_visible, with_entry, state_assign in *.
  destruct (state w !! key_of user) eqn:E;
    [ | destruct (String.eqb (key_of user) "__proto__") ];
    cbn [state set_state set_statePrototype].
  - rewrite lookup_insert_ne by exact Hk. rewrite lookup_insert_eq.
    repeat split; [ exact Hm | exact Hk | discriminate ].
  - rewrite E. repeat split; [ exact Hm | exact Hk | discriminate ].
  - rewrite lookup_insert_ne by exact Hk. rewrite lookup_insert_eq.
    repeat split; [ exact Hm | exact Hk | discriminate ].
Qed.

Lemma actor_entry_with_entry user o w :
  actor_entry user (with_entry user o w) = Some (Obj o).
Proof.
  unfold actor_entry, with_entry, state_assign.
  destruct (state w !! key_of user) eqn:E;
    [ | destruct (String.eqb (key_of user) "__proto__") eqn:Q ];
    cbn [state statePrototype set_state set_statePrototype].
  - rewrite lookup_insert_eq. reflexivity.
  - rewrite E. reflexivity.
  - rewrite lookup_insert_eq. reflexivity.
Qed.

Lemma with_entry_journals user o w :
  events (with_entry user o w) = events w /\
  updates (with_entry user o w) = updates w /\
  errors (with_entry user o w) = errors w /\
  ledger (with_entry user o w) = ledger w /\
  entropy (with_entry user o w) = entropy w /\
  schema (with_entry user o w) = schema w.
Proof.
  unfold with_entry, state_assign.
  destruct (state w !! key_of user);
    [ | destruct (String.eqb (key_of user) "__proto__") ];
    repeat split.
Qed.

(** For a user that can be served [changeActive] succeeds: it writes the
    flag, pushes the update and triggers one Refresh event. *)
Lemma changeActive_servable user b w :
  servable user w ->
  changeActive user b w =
    (Ok tt,
     add_event (refresh user)
       (add_update ({| active := Some b |}, user)
          (with_entry user {| active := Some b |} w))).
Proof.
  intros (Hm & _ & Hp). unfold method_visible in Hm.
  unfold changeActive, with_entry, bind, get. simpl. rewrite Hm.
  destruct (state w !! key_of user) as [[p | o] | ] eqn:E; try reflexivity.
  elim (Hp p). reflexivity.
Qed.

Lemma changeActive_keeps_servable user b :
  preserves (servable user) (changeActive user b).
Proof.
  intros w Hs. rewrite (changeActive_servable user b w Hs). cbn [snd].
  apply (servable_state user (with_entry user {| active := Some b |} w));
    [ reflexivity | apply with_entry_servable, Hs ].
Qed.


(** The [catch] block of [setData] restores the flag and rethrows. *)
Lemma setData_catch_restores user error w :
  servable user w ->
  exists w',
    setData_catch ref user error w = (Throw (blockActionError ref (Caught error)), w') /\
    servable user w' /\
    actor_entry user w' = Some (Obj {| active := Some true |}) /\
    events w' = (events w ++ [refresh user])%list /\
    updates w' = (updates w ++ [({| active := Some true |}, user)])%list.
Proof.
  intros Hs. unfold setData_catch, bind, ref_error, modify, throw.
  assert (Hs1 : servable user (add_error ("setData: " +:+ message error) w))
    by (apply (servable_view user w); [ reflexivity | exact Hs ]).
  rewrite (changeActive_servable user true _ Hs1).
  eexists. split; [ reflexivity | ].
  destruct (with_entry_journals user {| active := Some true |}
              (add_error ("setData: " +:+ message error) w)) as (He & Hu & _).
  split; [ | split; [ | split ] ].
  - eapply (servable_state user); [ | apply with_entry_servable, Hs1 ]. reflexivity.
  - erewrite <- (actor_entry_with_entry user). unfold actor_entry. reflexivity.
  - cbn [events add_event add_update]. rewrite He. reflexivity.
  - cbn [updates add_event add_update]. rewrite Hu. reflexivity.
Qed.

(** The log line written on entry does not matter to [getActive]. *)
Lemma getActive_after_log user s w :
  getActive user (add_log s w)
    = (fst (getActive user w), add_log s (snd (getActive user w))).
Proof. state_cases user w; reflexivity. Qed.

Lemma getActive_journals user w :
  events (snd (getActive user w)) = events w /\
  updates (snd (getActive user w)) = updates w /\
  errors (snd (getActive user w)) = errors w /\
  ledger (snd (getActive user w)) = ledger w /\
  entropy (snd (getActive user w)) = entropy w /\
  schema (snd (getActive user w)) = schema w.
Proof. state_cases user w; repeat split. Qed.

(** A [getActive] that returns leaves the user servable, unless the
    user's key is the name of the method: then it has just hidden it. *)
Lemma getActive_Ok_servable user a w :
  fst (getActive user w) = Ok a ->
  key_of user <> "hasOwnProperty" ->
  servable user (snd (getActive user w)).
Proof.
  intros Hg Hk. revert Hg. unfold servable, method_visible.
  state_cases user w; intros Hg; try discriminate Hg;
    rewrite ?lookup_insert_eq, ?lookup_insert_ne by exact Hk;
    repeat split; try assumption; try discriminate.
  all: intros p0 Hq; congruence.
Qed.

Lemma getActive_Ok_shadows user a w :
  fst (getActive user w) = Ok a ->
  key_of user = "hasOwnProperty" ->
  state (snd (getActive user w)) !! "hasOwnProperty" <> None.
Proof.
  intros Hg Hk. revert Hg.
  unfold getActive, state_assign, bind, get, modify, ret, throw. simpl. rewrite Hk.
  destruct (state w !! "hasOwnProperty") eqn:E; simpl; [ discriminate | ].
  intros _. rewrite lookup_insert_eq. discriminate.
Qed.

(** What [setData] does once the gate is passed. *)
Lemma setData_after_gate user _data w :
  truthy_str (did user) = true ->
  fst (getActive user w) = Ok true ->
  setData env ref user _data w =
    tryCatch (bind (setData_document env ref user _data) (setData_submit ref user))
      (setData_catch ref user) (add_log "setData" (snd (getActive user w))).
Proof.
  intros Hdid Hgate. unfold setData, ref_log.
  unfold bind at 1. unfold modify at 1. rewrite Hdid.
  change (negb true) with false. cbv iota.
  unfold bind at 1. rewrite getActive_after_log, Hgate. reflexivity.
Qed.

Lemma gate_servable user w :
  fst (getActive user w) = Ok true ->
  key_of user <> "hasOwnProperty" ->
  servable user (add_log "setData" (snd (getActive user w))) /\
  events (add_log "setData" (snd (getActive user w))) = events w /\
  updates (add_log "setData" (snd (getActive user w))) = updates w.
Proof.
  intros Hgate Hk.
  destruct (getActive_journals user w) as (He & Hu & _).
  split; [ | split; [ exact He | exact Hu ] ].
  apply (servable_view user (snd (getActive user w))); [ reflexivity | ].
  apply (getActive_Ok_servable user true); assumption.
Qed.

(** The body of the [try] block keeps the user servable. *)
Lemma setData_try_servable user _data :
  preserves (servable user)
    (bind (setData_document env ref user _data) (setData_submit ref user)).
Proof.
  apply preserves_bind; [ | intros st ].
  - apply setData_document_preserves.
    + apply servable_view.
    + intros b. apply changeActive_keeps_servable.
  - apply setData_submit_preserves.
    + intros b. apply changeActive_keeps_servable.
    + intros e w H. exact H.
Qed.

(** While the document is prepared the actor is Busy: wherever
    [setData_document] stops, the actor's flag is [false], one update has
    been pushed and one Refresh event triggered. *)
Lemma setData_document_leaves_busy user _data w0 :
  servable user w0 ->
  servable user (snd (setData_document env ref user _data w0)) /\
  actor_entry user (snd (setData_document env ref user _data w0))
    = Some (Obj {| active := Some false |}) /\
  events (snd (setData_document env ref user _data w0))
    = (events w0 ++ [refresh user])%list /\
  updates (snd (setData_document env ref user _data w0))
    = (updates w0 ++ [({| active := Some false |}, user)])%list.
Proof.
  intros Hs.
  apply (setData_document_post env ref
           (fun w => servable user w /\
                     actor_entry user w = Some (Obj {| active := Some false |}) /\
                     events w = (events w0 ++ [refresh user])%list /\
                     updates w = (updates w0 ++ [({| active := Some false |}, user)])%list)
           ltac:(intros a b Hv (Hsv & Ha & He & Hu);
                 split; [ exact (servable_view user a b Hv Hsv) | ];
                 unfold request_view in Hv; injection Hv as Hv1 Hv2 Hv3 Hv4;
                 unfold actor_entry in *;
                 rewrite <- Hv1, <- Hv2, <- Hv3, <- Hv4; auto)
           user
           (fun w => servable user w /\ events w = events w0 /\
                     updates w = updates w0)).
  - intros w2 (Hs2 & He & Hu). rewrite (changeActive_servable user false w2 Hs2).
    cbn [snd].
    destruct (with_entry_journals user {| active := Some false |} w2) as (He2 & Hu2 & _).
    split; [ | split; [ | split ] ].
    + eapply (servable_state user); [ | apply with_entry_servable, Hs2 ]. reflexivity.
    + erewrite <- (actor_entry_with_entry user). unfold actor_entry. reflexivity.
    + cbn [events add_event add_update]. rewrite He2, He. reflexivity.
    + cbn [updates add_event add_update]. rewrite Hu2, Hu. reflexivity.
  - auto.
Qed.

(** The end of the [try] block: it throws before doing anything, or the
    validators accept and it restores Active and triggers Run and
    Refresh with the document. *)
Lemma setData_submit_cases user st w1 :
  servable user w1 ->
  (exists e, setData_submit ref user st w1 = (Throw e, w1)) \/
  (runValidators (getValidators ref) user st = Ok true /\
   setData_submit ref user st w1 =
     (Ok tt,
      add_event (refresh_with user st)
        (add_event (run_with user st)
           (add_event (refresh user)
              (add_update ({| active := Some true |}, user)
                 (with_entry user {| active := Some true |} w1)))))).
Proof.
  intros Hs.
  pose proof (changeActive_servable user true w1 Hs) as Hc.
  unfold setData_submit, validateDocuments, bind, await, ref_triggerEvents, modify.
  destruct (runValidators (getValidators ref) user st) as [[ | ] | e]; cbn [negb].
  - right. split; [ reflexivity | ]. rewrite Hc. reflexivity.
  - left. eexists. reflexivity.
  - left. eexists. reflexivity.
Qed.




(** The validators reject exactly when one of them answers [false]
    after all the earlier ones accepted. *)
Lemma runValidators_false validators user st :
  runValidators validators user st = Ok false <->
  exists before v after,
    validators = (before ++ v :: after)%list /\
    Forall (fun c => run c user st = Ok true) before /\
    run v user st = Ok false.
Proof.
  induction validators as [ | c rest IH ]; simpl.
  - split; [ discriminate | ].
    intros (before & v & after & Heq & _). destruct before; discriminate Heq.
  - destruct (run c user st) as [[ | ] | e] eqn:Ec; simpl.
    + rewrite IH. split.
      * intros (before & v & after & -> & Hall & Hv).
        exists (c :: before), v, after. repeat split; [ | exact Hv ].
        constructor; [ exact Ec | exact Hall ].
      * intros (before & v & after & Heq & Hall & Hv).
        destruct before as [ | b before ]; simpl in Heq; inversion Heq; subst.
        -- congruence.
        -- inversion Hall; subst. exists before, v, after. auto.
    + split; [ intros _ | reflexivity ].
      exists [], c, rest. repeat split; [ constructor | exact Ec ].
    + split; [ discriminate | ].
      intros (before & v & after & Heq & Hall & Hv).
      destruct before as [ | b before ]; simpl in Heq; inversion Heq; subst.
      -- congruence.
      -- inversion Hall; subst. congruence.
Qed.

(** With the method hidden, the [try] block stops at its first
    statement. *)
Lemma setData_document_shadowed user _data w :
  state w !! "hasOwnProperty" <> None ->
  setData_document env ref user _data w
    = (Throw (TypeError hasOwnProperty_is_not_a_function), w).
Proof.
  intros Hsh. unfold setData_document. unfold bind at 1.
  rewrite (changeActive_shadowed user false w Hsh). reflexivity.
Qed.



(** C8: [generateId].  ['OWNER'] returns the caller's did and changes
    nothing; ['UUID'] returns the identifier [GenerateUUIDv4] draws at this
    call and consumes the draw, so that, identifiers never repeating, two
    calls in a row return different identifiers; ['DID'], when the ledger,
    the repository and the wallet accept, submits the new DID document to
    the ledger, persists it, stores its private key in the wallet under
    the new did, and returns that did; any other [idType] returns no
    identifier and changes nothing. *)
Theorem generateId_by_idType user account key w :
  generateId env ref (VStr "OWNER") user account key w = (Ok (did user), w) /\
  (generateId env ref (VStr "UUID") user account key w
     = (Ok (Some (GenerateUUIDv4 env (entropy w))), tick w) /\
   (uuids_never_repeat env ->
    forall user' account' key' id1 id2 w1 w2,
      generateId env ref (VStr "UUID") user account key w = (Ok id1, w1) ->
      generateId env ref (VStr "UUID") user' account' key' w1 = (Ok id2, w2) ->
      id1 <> id2)) /\
  (forall topic result,
     let didObject := DIDDocument_create env (entropy w) (topic_topicId topic) in
     let sub :=
       {| sub_operator := account; sub_topic := Some topic;
          sub_message :=
            {| msg_action := CreateDID; msg_document := DIDBody didObject;
               msg_relationships := [] |} |} in
     let doc :=
       {| dd_did := getDid didObject; dd_document := getDocument didObject;
          dd_status := DidDocumentStatus_CREATE;
          dd_messageId := getId result; dd_topicId := getTopicId result |} in
     PolicyUtils_getTopic env = Ok topic ->
     sendMessage env (ledger w) sub = Ok result ->
     saveDidDocument env doc = None ->
     wallet_setKey_fault env (walletToken user) KeyType_KEY (getDid didObject) = None ->
     exists w',
       generateId env ref (VStr "DID") user account key w
         = (Ok (Some (getDid didObject)), w') /\
       ledger w' = (ledger w ++ [sub])%list /\
       didDocuments w' = (didDocuments w ++ [doc])%list /\
       wallet w' !! (walletToken user, KeyType_KEY, getDid didObject)
         = Some (getPrivateKeyString didObject)) /\
  (forall idType,
     strict_eq_str idType "UUID" = false ->
     strict_eq_str idType "DID" = false ->
     strict_eq_str idType "OWNER" = false ->
     generateId env ref idType user account key w = (Ok None, w)).
Proof.
  split; [ reflexivity | ]. split; [ split; [ reflexivity | ] | split ].
  - intros Hfresh user' account' key' id1 id2 w1 w2 H1 H2.
    unfold generateId, tryCatch, bind, gets, modify, ret in H1, H2. simpl in H1, H2.
    inversion H1; subst. inversion H2; subst. simpl.
    intros Heq. injection Heq as Heq. apply Hfresh in Heq. lia.
  - intros topic result didObject sub doc Htopic Hsend Hsave Hkey.
    eexists. split.
    + unfold generateId, tryCatch, MessageServer_sendMessage, wallet_setKey,
        bind, gets, modify, ret, await, check.
      simpl. rewrite Htopic. fold didObject. fold sub. rewrite Hsend.
      fold doc. rewrite Hsave. simpl. rewrite Hkey. reflexivity.
    + simpl. repeat split. apply lookup_insert_eq.
  - intros idType Hu Hd Ho. unfold generateId, tryCatch.
    rewrite Hu, Hd, Ho. reflexivity.
Qed.

(** C9, amended: per-actor isolation.  For two actors with different
    state keys, what [changeActive], [getActive] or a whole [setData] does
    under the first leaves the own property and the block state of the
    second as they were; and when the key of the first is not
    ['hasOwnProperty'], neither [getActive] nor [getData] asked for the
    second can tell that [changeActive] or [getActive] ran for the
    first. *)
Theorem per_actor_isolation a a' b _data w :
  key_of a <> key_of a' ->
  (state (snd (changeActive a b w)) !! key_of a' = state w !! key_of a' /\
   actor_entry a' (snd (changeActive a b w)) = actor_entry a' w) /\
  (state (snd (getActive a w)) !! key_of a' = state w !! key_of a' /\
   actor_entry a' (snd (getActive a w)) = actor_entry a' w) /\
  (state (snd (setData env ref a _data w)) !! key_of a' = state w !! key_of a' /\
   actor_entry a' (snd (setData env ref a _data w)) = actor_entry a' w) /\
  (key_of a <> "hasOwnProperty" ->
   fst (getActive a' (snd (changeActive a b w))) = fst (getActive a' w) /\
   fst (getData env ref a' (snd (changeActive a b w))) = fst (getData env ref a' w) /\
   fst (getActive a' (snd (getActive a w))) = fst (getActive a' w)).
Proof.
  intros Hne.
  pose proof (changeActive_other a b (key_of a') w Hne) as Hc.
  pose proof (getActive_other a (key_of a') w Hne) as Hg.
  split; [ split; [ exact Hc | apply changeActive_entry_other, Hne ] | ].
  split; [ split; [ exact Hg | apply getActive_entry_other, Hne ] | ].
  split.
  - apply (setData_preserves env ref
             (fun w1 => state w1 !! key_of a' = state w !! key_of a' /\
                        actor_entry a' w1 = actor_entry a' w)).
    + intros w1 w2 Hv [H1 H2]. unfold request_view in Hv. injection Hv as Hs Hp _ _.
      unfold actor_entry in *. rewrite <- Hs, <- Hp. auto.
    + intros b1 w1 [H1 H2].
      rewrite changeActive_other, changeActive_entry_other by exact Hne. auto.
    + intros w1 [H1 H2].
      rewrite getActive_other, getActive_entry_other by exact Hne. auto.
    + intros e w1 H. exact H.
    + auto.
  - intros Hk.
    pose proof (changeActive_other a b "hasOwnProperty" w Hk) as Hcm.
    pose proof (getActive_other a "hasOwnProperty" w Hk) as Hgm.
    split; [ | split ].
    + apply getActive_reads_own_entry; assumption.
    + apply getData_reads_own_entry; [ apply changeActive_schema | | ]; assumption.
    + apply getActive_reads_own_entry; assumption.
Qed.

(** C10: [validate] never throws and records at most one error per
    call.  When the [schema] option is not set, is not a string, or names
    no schema of the repository, the one error recorded is the one about
    [schema], whatever the [presetSchema] option holds. *)
Theorem validate_records_one_error container :
  (exists container',
     validate env ref container = (Ok tt, container') /\
     (container' = container \/
      exists msg, container' = (container ++ [(uuid ref, msg)])%list)) /\
  (truthy (opt_schema (options ref)) = false ->
     validate env ref container =
       (Ok tt,
        (container ++
           [(uuid ref, "Option " +:+ dq +:+ "schema" +:+ dq +:+ " does not set")])%list)) /\
  (truthy (opt_schema (options ref)) = true ->
   is_string (opt_schema (options ref)) = false ->
     validate env ref container =
       (Ok tt,
        (container ++
           [(uuid ref, "Option " +:+ dq +:+ "schema" +:+ dq +:+ " must be a string")])%list)) /\
  (truthy (opt_schema (options ref)) = true ->
   is_string (opt_schema (options ref)) = true ->
   findSchema env (opt_schema (options ref)) (topicId ref) = Ok None ->
     validate env ref container =
       (Ok tt,
        (container ++
           [(uuid ref,
             "Schema with id " +:+ dq +:+ to_string (opt_schema (options ref))
               +:+ dq +:+ " does not exist")])%list)).
Proof.
  split; [ | split; [ | split ] ].
  - unfold validate, tryCatch, addBlockError, bind, modify, await, ret.
    destruct (negb (truthy (opt_schema (options ref)))); [ eauto | ].
    destruct (negb (is_string (opt_schema (options ref)))); [ eauto | ].
    destruct (findSchema env (opt_schema (options ref)) (topicId ref))
      as [[s | ] | e]; [ | eauto | eauto ].
    destruct (truthy (opt_presetSchema (options ref))); [ | eauto ].
    destruct (findSchema env (opt_presetSchema (options ref)) (topicId ref))
      as [[s' | ] | e]; eauto.
  - intros Hs. unfold validate, tryCatch, addBlockError, modify. rewrite Hs. reflexivity.
  - intros Hs Hstr. unfold validate, tryCatch, addBlockError, modify.
    rewrite Hs, Hstr. reflexivity.
  - intros Hs Hstr Hfind. unfold validate, tryCatch, addBlockError, bind, modify, await.
    rewrite Hs, Hstr, Hfind. reflexivity.
Qed.

End Block.


End RequestTheorems.

(** ** The Request block on concrete collaborators *)

Module RequestExamples.
Import RequestVcDocumentBlock RequestSamples RequestTheorems.

Lemma sample_uuids_never_repeat : uuids_never_repeat env.
Proof.
  intros n m H. simpl in H.
  apply (inj (String.app "uuid-")) in H. apply (inj pretty) in H. exact H.
Qed.


(** For the user whose did is ['hasOwnProperty'] the gate's [getActive]
    stores the entry that hides the method: the transition to Busy fails,
    so does the [changeActive] of the [catch] block, and [setData] throws
    their TypeError without update or event. *)
Lemma setData_never_busy_when_shadowing :
  let ref := block (VStr "#report") VUndefined (VStr "UUID") [accepting] in
  let r := setData env ref shadow a_request fresh in
  fst (getActive shadow fresh) = Ok true /\
  fst r = Throw (TypeError hasOwnProperty_is_not_a_function) /\
  updates (snd r) = [] /\ events (snd r) = [].
Proof. intros ref r. repeat split; vm_compute; reflexivity. Qed.

(** Each way of failing in Busy, and a request without document: [setData]
    throws and alice is active again. *)
Lemma setData_failures_restore_active :
  let ref := block (VStr "#report") VUndefined (VStr "DID") [accepting] in
  let restored (r : Result unit * World) :=
    match fst r with
    | Throw _ => state (snd r) !! key_of alice = Some (Obj {| active := Some true |})
    | Ok _ => False
    end in
  Forall (fun f => restored (setData (env_of (Some f)) ref alice a_request fresh))
    [WalletDown; RelationshipsUnresolved; RepositoryDown; LedgerDown; SubjectRejected;
     CredentialsDown] /\
  restored (setData env (block (VStr "#missing") VUndefined VUndefined []) alice
              a_request fresh) /\
  restored (setData env ref alice {| document := None; ref_id := VUndefined |} fresh).
Proof.
  intros ref restored. split; [ | split ].
  - repeat constructor; vm_compute; reflexivity.
  - vm_compute; reflexivity.
  - vm_compute; reflexivity.
Qed.





Lemma generateId_by_idType_witness :
  let ref := block (VStr "#report") VUndefined (VStr "DID") [] in
  generateId env ref (VStr "OWNER") alice None None fresh = (Ok (did alice), fresh) /\
  (forall id1 id2 w1 w2,
     generateId env ref (VStr "UUID") alice None None fresh = (Ok id1, w1) ->
     generateId env ref (VStr "UUID") bob None None w1 = (Ok id2, w2) ->
     id1 <> id2) /\
  (exists w',
     generateId env ref (VStr "DID") alice (Some "0.0.1001") None fresh
       = (Ok (Some "did:hedera:new-0"), w') /\
     wallet w' !! ("token-alice", KeyType_KEY, "did:hedera:new-0") = Some "key-0") /\
  generateId env ref VUndefined alice None None fresh = (Ok None, fresh).
Proof.
  intros ref.
  destruct (generateId_by_idType env ref alice None None fresh)
    as (Howner & [_ Hfresh] & _ & Hnone).
  destruct (generateId_by_idType env ref alice (Some "0.0.1001") None fresh)
    as (_ & _ & Hdid & _).
  split; [ exact Howner | ]. split; [ | split ].
  - intros id1 id2 w1 w2. apply Hfresh. exact sample_uuids_never_repeat.
  - destruct (Hdid {| topic_id := "root"; topic_topicId := "0.0.7" |}
                {| getId := "msg-0"; getTopicId := "0.0.7" |})
      as (w' & Hrun & _ & _ & Hkey); try reflexivity.
    exists w'. split; [ exact Hrun | exact Hkey ].
  - apply Hnone; reflexivity.
Defined.

Lemma per_actor_isolation_witness :
  let ref := block (VStr "#report") VUndefined (VStr "UUID") [] in
  let w := busy_for bob in
  key_of alice <> key_of bob /\
  state (snd (changeActive alice false w)) !! key_of bob = state w !! key_of bob /\
  actor_entry bob (snd (setData env ref alice a_request w)) = actor_entry bob w /\
  fst (getActive bob (snd (changeActive alice true w))) = Ok false /\
  fst (getData env ref bob (snd (changeActive alice true w)))
    = fst (getData env ref bob w).
Proof.
  intros ref w.
  assert (Hne : key_of alice <> key_of bob) by (vm_compute; discriminate).
  assert (Hk : key_of alice <> "hasOwnProperty") by (vm_compute; discriminate).
  destruct (per_actor_isolation env ref alice bob false a_request w Hne)
    as ((Hc & _) & _ & (_ & Hs) & _).
  destruct (per_actor_isolation env ref alice bob true a_request w Hne)
    as (_ & _ & _ & Hobs).
  destruct (Hobs Hk) as (Hga & Hgd & _).
  split; [ exact Hne | ]. split; [ exact Hc | ]. split; [ exact Hs | ].
  split; [ | exact Hgd ].
  rewrite Hga. vm_compute; reflexivity.
Defined.

(** C9, as stated, fails.  The entry that [getActive] or [changeActive]
    stores for the actor whose did is ['hasOwnProperty'] hides the method
    with which the block looks entries up: alice, who was active, gets a
    TypeError from [getActive] afterwards, although her entry has not
    been touched.  And two actors without did share the key
    ['undefined']: what [changeActive] writes for one, [getActive]
    answers to the other. *)
Lemma isolation_fails_on_special_keys :
  (key_of shadow <> key_of alice /\
   fst (getActive alice fresh) = Ok true /\
   fst (getActive alice (snd (changeActive shadow true fresh)))
     = Throw (TypeError hasOwnProperty_is_not_a_function) /\
   fst (getActive alice (snd (getActive shadow fresh)))
     = Throw (TypeError hasOwnProperty_is_not_a_function)) /\
  (anonymous <> visitor /\
   fst (getActive visitor fresh) = Ok true /\
   fst (getActive visitor (snd (changeActive anonymous false fresh))) = Ok false).
Proof.
  repeat split; try (vm_compute; reflexivity); try discriminate.
Qed.

(** Both [schema] and [presetSchema] name schemas that do not exist: one
    error, about [schema]. *)
Lemma validate_records_one_error_witness :
  let ref := block (VStr "#missing") (VStr "#missing-too") VUndefined [] in
  validate env ref [] =
    (Ok tt,
     [("b-1", "Schema with id " +:+ dq +:+ "#missing" +:+ dq +:+ " does not exist")]).
Proof.
  intros ref.
  destruct (validate_records_one_error env ref []) as (_ & _ & _ & Hmissing).
  rewrite Hmissing; reflexivity.
Defined.

End RequestExamples.

(** ** The Mint block: facts *)

Module MintTheorems.
Import MintBlock.

Section Block.

Variable env : Env.
Variable ref : BlockRef.

(** The guard before ['Bad VC'] cannot hold: an array without elements
    has no first element. *)
Lemma bad_vc_guard_is_dead (docs : list InputDocument) :
  Nat.eqb (length docs) 0 && truthy_obj (docs !! 0) = false.
Proof. destruct docs; reflexivity. Qed.

(** What the loop of [runAction] has collected when it ends normally. *)
Lemma collect_Ok field docs acc c :
  collect env ref field docs acc = Ok c ->
  vcs c = (vcs acc ++ map (fun d => VcDocument_fromJsonTree env (document d)) docs)%list /\
  vsMessages c = (vsMessages acc ++ prior_ids docs)%list /\
  accountIds c = (accountIds acc ++ account_values field docs)%list /\
  Forall (fun d => signature d <> INVALID) docs.
Proof.
  revert acc. induction docs as [ | d docs IH ]; intros acc H; simpl in H.
  - inversion H; subst. rewrite !app_nil_r. repeat split. constructor.
  - assert (Hsig : signature d <> INVALID)
      by (destruct (signature d); [ discriminate | discriminate | discriminate H ]).
    assert (H' : collect env ref field docs
              {| vcs := vcs acc ++ [VcDocument_fromJsonTree env (document d)];
                 vsMessages :=
                   if truthy_str (messageId d)
                   then vsMessages acc ++ [show_str (messageId d)]
                   else vsMessages acc;
                 topicIds :=
                   if truthy_str (topicId d)
                   then topicIds acc ++ [show_str (topicId d)]
                   else topicIds acc;
                 accountIds :=
                   match accounts d with
                   | Some a => accountIds acc ++ [a !! field]
                   | None => accountIds acc
                   end |} = Ok c)
      by (destruct (signature d); [ exact H | exact H | congruence ]).
    destruct (IH _ H') as (Hv & Hm & Ha & Hall). simpl in Hv, Hm, Ha.
    repeat split.
    + rewrite Hv, <- app_assoc. reflexivity.
    + rewrite Hm. unfold prior_ids. simpl.
      destruct (messageId d) as [s | ]; simpl; [ | reflexivity ].
      destruct (negb (String.eqb s EmptyString)); simpl; [ | reflexivity ].
      rewrite <- app_assoc. reflexivity.
    + rewrite Ha. unfold account_values. simpl.
      destruct (accounts d) as [a | ]; simpl; [ | reflexivity ].
      rewrite <- app_assoc. reflexivity.
    + constructor; [ exact Hsig | exact Hall ].
Qed.


(** It throws as soon as it meets one that has. *)
Lemma collect_invalid field docs acc :
  Exists (fun d => signature d = INVALID) docs ->
  collect env ref field docs acc = Throw (blockActionError ref (Text "Invalid VC proof")).
Proof.
  intros Hex. revert acc. induction Hex as [ d docs Hd | d docs _ IH ]; intros acc; simpl.
  - rewrite Hd. reflexivity.
  - destruct (signature d); [ apply IH | apply IH | reflexivity ].
Qed.

(** Before [mintProcessing] the block has no effect outside its logs. *)
Lemma runAction_resolve_effects event E :
  preserves (fun w => mint_effects w = E) (runAction_resolve env ref event).
Proof.
  unfold runAction_resolve, ref_error. frame; assumption.
Qed.

Lemma runAction_resolve_Ok event w r w1 :
  runAction_resolve env ref event w = (Ok r, w1) ->
  let docs := PolicyUtils_getArray env (data (event_data event)) in
  res_vcs r = map (fun d => VcDocument_fromJsonTree env (document d)) docs /\
  res_vsMessages r = prior_ids docs.
Proof.
  intros H docs. unfold runAction_resolve in H. fold docs in H.
  unfold bind, await, throw, ret in H.
  destruct (findToken env _) as [[token | ] | e]; try discriminate H.
  rewrite bad_vc_guard_is_dead in H.
  destruct (docs !! 0) as [doc0 | ]; try discriminate H.
  destruct (getUserById env _) as [[docOwner | ] | e]; try discriminate H.
  destruct (collect env ref (account_field ref) docs _) as [c | e] eqn:Ec;
    try discriminate H.
  apply collect_Ok in Ec. destruct Ec as (Hv & Hm & _ & _). simpl in Hv, Hm.
  match type of H with
  | context [ match ?f w with _ => _ end ] => destruct (f w) as [[[] | e] w2]
  end; try discriminate H.
  destruct (negb (truthy_str _)); try discriminate H.
  destruct (getHederaAccount env _) as [root | e]; try discriminate H.
  inversion H; subst. simpl. split; assumption.
Qed.

(** [mintProcessing] on an amount that is not a finite number. *)
Lemma mintProcessing_invalid_amount token documents relationships topic_Id root user
    target w :
  let amount := PolicyUtils_aggregate env (opt_rule (options ref)) documents in
  Number_isNaN amount || negb (Number_isFinite amount) = true ->
  mintProcessing env ref token documents relationships topic_Id root user target w =
    (Throw (blockActionError ref
              (Text ("Invalid token value: " +:+ number_to_string env amount))),
     tick w).
Proof.
  intros amount Hbad. unfold mintProcessing, bind, gets, modify. simpl.
  fold amount. rewrite Hbad. reflexivity.
Qed.

(** The submissions of [mintProcessing], run by run. *)
Lemma mintProcessing_submissions token documents relationships topic_Id root user
    target w r w' :
  ledger_returns_concrete_ids env ->
  mintProcessing env ref token documents relationships topic_Id root user target w
    = (r, w') ->
  (ledger w' = ledger w \/
   exists topic mintVC vcResult,
     sendMessage env (ledger w) (vc_submission root topic mintVC relationships)
       = Ok vcResult /\
     (ledger w' = (ledger w ++ [vc_submission root topic mintVC relationships])%list \/
      exists vp vpResult,
        sendMessage env
          (ledger w ++ [vc_submission root topic mintVC relationships])%list
          (vp_submission root topic vp relationships (getId vcResult)) = Ok vpResult /\
        ledger w' =
          (ledger w ++
             [vc_submission root topic mintVC relationships;
              vp_submission root topic vp relationships (getId vcResult)])%list)) /\
  (forall vp, r = Ok vp ->
     exists topic mintVC vcResult,
       sendMessage env (ledger w) (vc_submission root topic mintVC relationships)
         = Ok vcResult /\
       getId vcResult <> EmptyString /\
       ledger w' =
         (ledger w ++
            [vc_submission root topic mintVC relationships;
             vp_submission root topic vp relationships (getId vcResult)])%list /\
       msg_relationships
         (sub_message (vp_submission root topic vp relationships (getId vcResult)))
         = (relationships ++ [getId vcResult])%list /\
       (forall id, In id relationships \/ id = getId vcResult ->
          In id (msg_relationships
                   (sub_message
                      (vp_submission root topic vp relationships (getId vcResult)))))).
Proof.
  intros Hledger Hrun.
  unfold mintProcessing, createMintVC, createVP, MessageServer_sendMessage, ref_log,
    bind, gets, modify, await, check, throw, ret in Hrun.
  simpl in Hrun.
  destruct (Number_isNaN _ || negb (Number_isFinite _)).
  { inversion Hrun; subst. split; [ left; reflexivity | discriminate ]. }
  destruct (PolicyUtils_tokenAmount env token _) as [tokenValue tokenAmount].
  destruct (PolicyUtils_getSchema env _) as [sch | e];
    [ | inversion Hrun; subst; split; [ left; reflexivity | discriminate ] ].
  destruct (VcHelper_createVC env _ _ _) as [mintVC | e];
    [ | inversion Hrun; subst; split; [ left; reflexivity | discriminate ] ].
  destruct (VcHelper_createVP env _ _ _ _) as [vp | e];
    [ | inversion Hrun; subst; split; [ left; reflexivity | discriminate ] ].
  assert (Htopic : exists rt, rt =
            (if truthy_str topic_Id
             then PolicyUtils_getTopicById env (show_str topic_Id)
             else PolicyUtils_getTopic env root user)) by eauto.
  destruct Htopic as [rt Hrt].
  destruct (truthy_str topic_Id);
    rewrite <- Hrt in Hrun; clear Hrt;
    (destruct rt as [topic | e];
     [ | inversion Hrun; subst; split; [ left; reflexivity | discriminate ] ]).
  all: fold (vc_submission root topic mintVC relationships) in Hrun.
  all: cbn [ledger add_log tick add_submission add_vcRecord add_vpRecord add_mint]
         in Hrun.
  all: destruct (sendMessage env (ledger w) (vc_submission root topic mintVC relationships))
         as [vcResult | e] eqn:Hvc;
       [ | inversion Hrun; subst; split; [ left; reflexivity | discriminate ] ].
  all: pose proof (Hledger _ _ _ Hvc) as Hid.
  all: destruct (PolicyUtils_updateVCRecord env _);
       [ inversion Hrun; subst; split; [ | discriminate ];
         right; exists topic, mintVC, vcResult; split; [ exact Hvc | left; reflexivity ]
       | ].
  all: fold (vp_submission root topic vp relationships (getId vcResult)) in Hrun.
  all: cbn [ledger add_log tick add_submission add_vcRecord add_vpRecord add_mint]
         in Hrun.
  all: destruct (sendMessage env _ (vp_submission root topic vp relationships (getId vcResult)))
         as [vpResult | e] eqn:Hvp;
       [ | inversion Hrun; subst; split; [ | discriminate ];
           right; exists topic, mintVC, vcResult; split; [ exact Hvc | left; reflexivity ] ].
  all: assert (Hboth :
         ledger w' =
           (ledger w ++
              [vc_submission root topic mintVC relationships;
               vp_submission root topic vp relationships (getId vcResult)])%list ->
         (ledger w' = ledger w \/
          exists topic mintVC vcResult,
            sendMessage env (ledger w) (vc_submission root topic mintVC relationships)
              = Ok vcResult /\
            (ledger w' = (ledger w ++ [vc_submission root topic mintVC relationships])%list \/
             exists vp vpResult,
               sendMessage env
                 (ledger w ++ [vc_submission root topic mintVC relationships])%list
                 (vp_submission root topic vp relationships (getId vcResult))
                 = Ok vpResult /\
               ledger w' =
                 (ledger w ++
                    [vc_submission root topic mintVC relationships;
                     vp_submission root topic vp relationships (getId vcResult)])%list)))
       by (intros Hl; right; exists topic, mintVC, vcResult;
           split; [ exact Hvc | right; exists vp, vpResult; split; [ exact Hvp | exact Hl ] ]).
  all: assert (Hl2 : forall (l : list Submission) a b, ((l ++ [a]) ++ [b])%list = (l ++ [a; b])%list)
         by (intros l a b; rewrite <- app_assoc; reflexivity).
  all: destruct (PolicyUtils_saveVP env _);
       [ inversion Hrun; subst; split; [ apply Hboth, Hl2 | discriminate ] | ].
  all: destruct (PolicyUtils_mint env _);
       inversion Hrun; subst; (split; [ apply Hboth, Hl2 | ]);
       try discriminate.
  all: intros vp0 Hvp0; inversion Hvp0; subst vp0.
  all: exists topic, mintVC, vcResult.
  all: split; [ exact Hvc | ]; split; [ exact Hid | ]; split; [ apply Hl2 | ].
  all: split; [ reflexivity | ].
  all: intros id [Hin | ->]; simpl; apply in_or_app;
       [ left; exact Hin | right; left; reflexivity ].
Qed.

(** C1: the two-phase submission of [mintProcessing].  In every run the
    submissions added to the ledger are none, or the VC message alone, or
    the VC message followed by the VP message; the VP message is
    submitted to a ledger that already holds the VC message, after the
    VC submission has returned its result, and its relationships are the
    caller's relationships followed by the id of that result, which is
    not empty.  A run that returns has made both submissions. *)
Theorem mintProcessing_two_phase token documents relationships topic_Id root user
    target w r w' :
  ledger_returns_concrete_ids env ->
  mintProcessing env ref token documents relationships topic_Id root user target w
    = (r, w') ->
  (ledger w' = ledger w \/
   exists topic mintVC vcResult,
     sendMessage env (ledger w) (vc_submission root topic mintVC relationships)
       = Ok vcResult /\
     (ledger w' = (ledger w ++ [vc_submission root topic mintVC relationships])%list \/
      exists vp vpResult,
        sendMessage env
          (ledger w ++ [vc_submission root topic mintVC relationships])%list
          (vp_submission root topic vp relationships (getId vcResult)) = Ok vpResult /\
        ledger w' =
          (ledger w ++
             [vc_submission root topic mintVC relationships;
              vp_submission root topic vp relationships (getId vcResult)])%list)) /\
  (forall vp, r = Ok vp ->
     exists topic mintVC vcResult,
       sendMessage env (ledger w) (vc_submission root topic mintVC relationships)
         = Ok vcResult /\
       getId vcResult <> EmptyString /\
       ledger w' =
         (ledger w ++
            [vc_submission root topic mintVC relationships;
             vp_submission root topic vp relationships (getId vcResult)])%list /\
       msg_relationships
         (sub_message (vp_submission root topic vp relationships (getId vcResult)))
         = (relationships ++ [getId vcResult])%list /\
       (forall id, In id relationships \/ id = getId vcResult ->
          In id (msg_relationships
                   (sub_message
                      (vp_submission root topic vp relationships (getId vcResult)))))).
Proof. apply mintProcessing_submissions. Qed.

(** In [runAction] the relationships given to [mintProcessing] are the
    message ids of the input documents: a run that returns has submitted
    the VC message with them, and then the VP message with them and the
    id returned for the VC message. *)
Lemma runAction_submissions event w w' :
  ledger_returns_concrete_ids env ->
  runAction env ref event w = (Ok tt, w') ->
  let prior := prior_ids (PolicyUtils_getArray env (data (event_data event))) in
  exists root topic mintVC vp vcResult,
    sendMessage env (ledger w) (vc_submission root topic mintVC prior) = Ok vcResult /\
    getId vcResult <> EmptyString /\
    ledger w' =
      (ledger w ++
         [vc_submission root topic mintVC prior;
          vp_submission root topic vp prior (getId vcResult)])%list.
Proof.
  intros Hledger Hrun prior. unfold runAction in Hrun.
  apply bind_Ok in Hrun. destruct Hrun as (r & w1 & Hres & Hrun).
  apply bind_Ok in Hrun. destruct Hrun as (vp & w2 & Hmint & Hrun).
  destruct (runAction_resolve_Ok event w r w1 Hres) as [_ Hprior].
  fold prior in Hprior.
  pose proof (runAction_resolve_effects event (mint_effects w) w eq_refl) as Heff.
  rewrite Hres in Heff. simpl in Heff.
  assert (Hl : ledger w1 = ledger w)
    by (unfold mint_effects in Heff; congruence).
  destruct (mintProcessing_submissions _ _ _ _ _ _ _ _ _ _ Hledger Hmint) as [_ Hok].
  destruct (Hok vp eq_refl) as (topic & mintVC & vcResult & Hvc & Hid & Hl2 & _).
  rewrite Hprior, Hl in Hvc, Hl2.
  exists (res_root r), topic, mintVC, vp, vcResult.
  split; [ exact Hvc | ]. split; [ exact Hid | ].
  unfold ref_triggerEvents, bind, modify in Hrun. inversion Hrun; subst. exact Hl2.
Qed.

(** C2: when the aggregation rule over the input documents yields NaN or
    an infinite value, [runAction] throws, and the world it leaves has the
    ledger, the VC and VP records, the mint calls and the output events it
    found: nothing submitted, nothing persisted, no Run or Refresh event.
    The exception is the invalid-amount error whenever [runAction] gets
    as far as [mintProcessing]. *)
Theorem runAction_invalid_amount event w :
  let docs := PolicyUtils_getArray env (data (event_data event)) in
  let amount :=
    PolicyUtils_aggregate env (opt_rule (options ref))
      (map (fun d => VcDocument_fromJsonTree env (document d)) docs) in
  Number_isNaN amount || negb (Number_isFinite amount) = true ->
  exists e w',
    runAction env ref event w = (Throw e, w') /\
    mint_effects w' = mint_effects w /\
    (forall r w1,
       runAction_resolve env ref event w = (Ok r, w1) ->
       e = blockActionError ref
             (Text ("Invalid token value: " +:+ number_to_string env amount))).
Proof.
  intros docs amount Hbad. unfold runAction. unfold bind at 1.
  pose proof (runAction_resolve_effects event (mint_effects w) w eq_refl) as Heff.
  destruct (runAction_resolve env ref event w) as [[r | e] w1] eqn:Hres;
    simpl in Heff.
  - destruct (runAction_resolve_Ok event w r w1 Hres) as [Hv _].
    unfold bind at 1. rewrite mintProcessing_invalid_amount
      by (rewrite Hv; exact Hbad).
    eexists _, _. split; [ reflexivity | ]. split; [ exact Heff | ].
    intros r' w1' Heq. rewrite Hv. reflexivity.
  - eexists _, _. split; [ reflexivity | ]. split; [ exact Heff | ].
    intros r' w1' Heq. discriminate Heq.
Qed.

(** A document with an invalid signature makes [runAction]
    throw ['Invalid VC proof'], once the token and the owner of the first
    document are found. *)
Lemma runAction_invalid_signature event w token doc0 docOwner :
  let docs := PolicyUtils_getArray env (data (event_data event)) in
  findToken env (opt_tokenId (options ref)) = Ok (Some token) ->
  docs !! 0 = Some doc0 ->
  getUserById env (owner doc0) = Ok (Some docOwner) ->
  Exists (fun d => signature d = INVALID) docs ->
  runAction env ref event w =
    (Throw (blockActionError ref (Text "Invalid VC proof")), w).
Proof.
  intros docs Htoken Hdoc0 Howner Hbad.
  unfold runAction, runAction_resolve. fold docs.
  unfold bind, await, throw. rewrite Htoken, bad_vc_guard_is_dead, Hdoc0, Howner.
  rewrite collect_invalid by exact Hbad. reflexivity.
Qed.

(** Without input documents [runAction] does not
    throw ['Bad VC']; reading [docs[0].owner] throws a TypeError. *)
Lemma runAction_without_documents event w token :
  findToken env (opt_tokenId (options ref)) = Ok (Some token) ->
  PolicyUtils_getArray env (data (event_data event)) = [] ->
  runAction env ref event w =
    (Throw (TypeError "Cannot read properties of undefined (reading 'owner')"), w).
Proof.
  intros Htoken Hdocs. unfold runAction, runAction_resolve.
  unfold bind, await, throw. rewrite Htoken, Hdocs. reflexivity.
Qed.



End Block.


End MintTheorems.

(** ** The Mint block on concrete collaborators *)

Module MintExamples.
Import MintBlock MintSamples MintTheorems.

Lemma sample_ledger_returns_concrete_ids : ledger_returns_concrete_ids env.
Proof.
  intros sent sub result H. simpl in H. inversion H; subst. simpl. discriminate.
Qed.

(** One prior document: the VC message carries its id, the VP message
    carries it followed by the id the ledger gave to the VC message. *)
Lemma mintProcessing_two_phase_witness :
  let ref := block None in
  let r :=
    mintProcessing env ref a_token [] ["prior-0"] (Some "0.0.7") a_root owner_user
      "0.0.2001" nothing in
  ledger_returns_concrete_ids env /\
  map (fun s => (msg_action (sub_message s), msg_relationships (sub_message s)))
    (ledger (snd r))
    = [(CreateVC, ["prior-0"]); (CreateVP, ["prior-0"; "msg-0"])].
Proof.
  intros ref r. split; [ exact sample_ledger_returns_concrete_ids | ].
  destruct (mintProcessing_two_phase env ref a_token [] ["prior-0"] (Some "0.0.7")
              a_root owner_user "0.0.2001" nothing (fst r) (snd r)
              sample_ledger_returns_concrete_ids
              ltac:(unfold r; destruct (mintProcessing _ _ _ _ _ _ _ _ _ _); reflexivity))
    as [_ Hok].
  destruct (Hok {| vp_issuer := Some "did:hedera:root"; vp_id := "uuid-0";
                   vp_documents :=
                     [ {| vc_issuer := Some "did:hedera:root";
                          vc_subject :=
                            <["amount" := "1.00"]>
                              (<["tokenId" := "0.0.5005"]>
                                 (<["date" := "2022-06-01T00:00:00.000Z"]>
                                    {["type" := "MintToken"]})) |} ] |})
    as (topic & mintVC & vcResult & Hvc & _ & Hledger & _).
  - vm_compute; reflexivity.
  - rewrite Hledger. simpl in Hvc. inversion Hvc; subst. reflexivity.
Defined.

(** The rule yields NaN: the invalid-amount error, and nothing done. *)
Lemma runAction_invalid_amount_witness :
  let ref := block None in
  let e := env_with NaN (fun n => "msg-" +:+ pretty n) in
  let r := runAction e ref (event_of [doc 0 VERIFIED X]) nothing in
  fst r = Throw (blockActionError ref (Text "Invalid token value: NaN")) /\
  mint_effects (snd r) = mint_effects nothing.
Proof.
  intros ref e r.
  destruct (runAction_invalid_amount e ref (event_of [doc 0 VERIFIED X]) nothing)
    as (err & w' & Hrun & Heff & Herr); [ reflexivity | ].
  unfold r. rewrite Hrun. simpl. split; [ | exact Heff ].
  f_equal. eapply Herr. vm_compute; reflexivity.
Defined.

(** C3 at the empty list: a TypeError, not ['Bad VC']. *)
Lemma runAction_on_empty_list :
  runAction env (block None) (event_of []) nothing =
    (Throw (TypeError "Cannot read properties of undefined (reading 'owner')"),
     nothing).
Proof. vm_compute; reflexivity. Qed.


(** Account values [X, X, Y]: the tokens go to X, with one warning. *)
Lemma runAction_accounts_X_X_Y :
  let ref := block (Some "acct") in
  let r :=
    runAction env ref (event_of [doc 0 VERIFIED X; doc 1 VERIFIED X; doc 2 VERIFIED Y])
      nothing in
  fst r = Ok tt /\
  map mint_targetAccountId (mints (snd r)) = ["0.0.9"] /\
  errors (snd r) = [account_warning (Some "0.0.9")].
Proof. repeat split; vm_compute; reflexivity. Qed.


End MintExamples.

(** ** The Request block: the remaining behaviour *)

Module RequestExtras.
Import RequestVcDocumentBlock RequestFacts RequestTheorems.

Section Block.

Variable env : Env.
Variable ref : BlockRef.


(** A schema that is not there yet is not memoized: [getSchema] throws
    ['Waiting for schema'], and a later call asks the repository again
    and returns the schema once it is there. *)
Theorem getSchema_asks_again w :
  schema w = None ->
  findSchema env (opt_schema (options ref)) (topicId ref) = Ok None ->
  getSchema env ref w
    = (Throw (blockActionError ref (Text "Waiting for schema")), set_schema None w) /\
  forall env2 s,
    findSchema env2 (opt_schema (options ref)) (topicId ref) = Ok (Some s) ->
    getSchema env2 ref (snd (getSchema env ref w)) = (Ok s, set_schema (Some s) w).
Proof.
  intros Hs Hfind.
  assert (H1 : getSchema env ref w
            = (Throw (blockActionError ref (Text "Waiting for schema")),
               set_schema None w)).
  { unfold getSchema, bind, get, await, modify, throw. simpl.
    rewrite Hs, Hfind. reflexivity. }
  split; [ exact H1 | ].
  intros env2 s Hfind2. rewrite H1.
  unfold getSchema, bind, get, await, modify, ret. simpl.
  rewrite Hfind2. reflexivity.
Qed.

Lemma runValidators_true validators user st :
  runValidators validators user st = Ok true <->
  Forall (fun c => run c user st = Ok true) validators.
Proof.
  induction validators as [ | c rest IH ]; simpl.
  - split; [ constructor | reflexivity ].
  - destruct (run c user st) as [[ | ] | e] eqn:Ec; simpl.
    + rewrite IH. split.
      * intros H. constructor; assumption.
      * intros H. inversion H; assumption.
    + split; [ discriminate | ].
      intros H. inversion H; subst. congruence.
    + split; [ discriminate | ].
      intros H. inversion H; subst. congruence.
Qed.

(** [validateDocuments] answers [true] exactly when every child of class
    ['ValidatorBlock'] accepts the document; children of other classes
    are not asked. *)
Theorem validateDocuments_true user st :
  runValidators (getValidators ref) user st = Ok true <->
  forall c, In c (children ref) ->
            blockClassName c = "ValidatorBlock" -> run c user st = Ok true.
Proof.
  rewrite runValidators_true, List.Forall_forall. unfold getValidators.
  split.
  - intros H c Hin Hclass. apply H. apply filter_In. split; [ exact Hin | ].
    apply String.eqb_eq, Hclass.
  - intros H c Hin. apply filter_In in Hin. destruct Hin as [Hin Hclass].
    apply H; [ exact Hin | apply String.eqb_eq, Hclass ].
Qed.

(** [validateDocuments] throws exactly when a validator throws after all
    the earlier ones accepted: the exception is that validator's, and the
    validators after it are not run. *)
Theorem validateDocuments_throws validators user st e :
  runValidators validators user st = Throw e <->
  exists before v after,
    validators = (before ++ v :: after)%list /\
    Forall (fun c => run c user st = Ok true) before /\
    run v user st = Throw e.
Proof.
  induction validators as [ | c rest IH ]; simpl.
  - split; [ discriminate | ].
    intros (before & v & after & Heq & _). destruct before; discriminate Heq.
  - destruct (run c user st) as [[ | ] | e0] eqn:Ec; simpl.
    + rewrite IH. split.
      * intros (before & v & after & -> & Hall & Hv).
        exists (c :: before), v, after. repeat split; [ | exact Hv ].
        constructor; [ exact Ec | exact Hall ].
      * intros (before & v & after & Heq & Hall & Hv).
        destruct before as [ | b before ]; simpl in Heq; inversion Heq; subst.
        -- congruence.
        -- inversion Hall; subst. exists before, v, after. auto.
    + split; [ discriminate | ].
      intros (before & v & after & Heq & Hall & Hv).
      destruct before as [ | b before ]; simpl in Heq; inversion Heq; subst.
      -- congruence.
      -- inversion Hall; subst. congruence.
    + split.
      * intros H. inversion H; subst. exists [], c, rest.
        repeat split; [ constructor | exact Ec ].
      * intros (before & v & after & Heq & Hall & Hv).
        destruct before as [ | b before ]; simpl in Heq; inversion Heq; subst.
        -- congruence.
        -- inversion Hall; subst. congruence.
Qed.

(** What [changeActive] writes, [getActive] reads: for a user that can
    be served, [changeActive user b] returns; when the user's did is not
    ['__proto__'], [getActive] then answers [b] without changing
    anything.  Under the did ['__proto__'] the block state becomes the
    prototype of [this.state] and no property is stored: [getActive] does
    not find it and answers [true], whatever [b] was. *)
Theorem getActive_after_changeActive user b w :
  servable user w ->
  exists w1,
    changeActive user b w = (Ok tt, w1) /\
    (key_of user <> "__proto__" -> getActive user w1 = (Ok b, w1)) /\
    (key_of user = "__proto__" -> state w !! "__proto__" = None ->
     fst (getActive user w1) = Ok true).
Proof.
  intros Hs. rewrite (changeActive_servable user b w Hs).
  destruct Hs as (Hm & Hk & Hp). unfold method_visible in Hm.
  eexists. split; [ reflexivity | ]. split.
  - intros Hnp. unfold getActive, with_entry, state_assign, bind, get.
    destruct (state w !! key_of user) eqn:E;
      [ | destruct (String.eqb (key_of user) "__proto__") eqn:Q;
          [ elim Hnp; apply String.eqb_eq, Q | ] ];
      simpl; rewrite lookup_insert_ne by exact Hk; rewrite Hm, lookup_insert_eq;
      reflexivity.
  - intros Hq Hnone. unfold getActive, with_entry, state_assign, bind, get.
    rewrite Hq, Hnone. simpl. rewrite Hm, Hnone. reflexivity.
Qed.

(** [getActive] initialises at most once: a second call returns the same
    answer and changes nothing.  The user whose did is ['hasOwnProperty']
    is the exception: the entry that the first call has stored hides the
    method, and the second call throws. *)
Theorem getActive_twice user w a w1 :
  getActive user w = (Ok a, w1) ->
  getActive user w1 =
    if String.eqb (key_of user) "hasOwnProperty"
    then (Throw (TypeError hasOwnProperty_is_not_a_function), w1)
    else (Ok a, w1).
Proof.
  intros Hg.
  destruct (String.eqb (key_of user) "hasOwnProperty") eqn:Q.
  - apply String.eqb_eq in Q.
    pose proof (getActive_Ok_shadows user a w ltac:(rewrite Hg; reflexivity) Q) as Hsh.
    rewrite Hg in Hsh. apply getActive_shadowed, Hsh.
  - apply String.eqb_neq in Q. revert Hg.
    unfold getActive, state_assign, bind, get, modify, ret, throw. simpl.
    destruct (state w !! "hasOwnProperty") eqn:Em; [ discriminate | ].
    destruct (state w !! key_of user) as [[p | [[a0 | ]]] | ] eqn:E;
      [ | | | destruct (String.eqb (key_of user) "__proto__") eqn:P ];
      simpl; intros H; inversion H; subst; simpl;
      rewrite ?lookup_insert_ne by exact Q;
      rewrite Em, ?E, ?lookup_insert_eq, ?P; reflexivity.
Qed.

(** A key of [this.state] that holds a boolean, as the key ['active'] of
    the initial [{ active: true }] does, is not usable as an actor: while
    the method is visible, [getActive], [changeActive] and [setData]
    throw, for a user whose did is that key, the TypeError of an
    assignment to a property of that boolean, and [setData] has written
    its log line only. *)
Theorem boolean_entry_blocks_the_actor user p _data b w :
  truthy_str (did user) = true ->
  method_visible w ->
  state w !! key_of user = Some (Prim p) ->
  getActive user w = (Throw (TypeError (cannot_create_property p)), w) /\
  changeActive user b w = (Throw (TypeError (cannot_create_property p)), w) /\
  setData env ref user _data w
    = (Throw (TypeError (cannot_create_property p)), add_log "setData" w).
Proof.
  unfold method_visible. intros Hdid Hm Hp. split; [ | split ].
  - unfold getActive, bind, get. simpl. rewrite Hm, Hp. reflexivity.
  - unfold changeActive, bind, get. simpl. rewrite Hm, Hp. reflexivity.
  - unfold setData, ref_log. unfold bind at 1. unfold modify at 1.
    rewrite Hdid. change (negb true) with false. cbv iota.
    unfold bind at 1. unfold getActive, bind, get. simpl. rewrite Hm, Hp. reflexivity.
Qed.

(** A [getActive] that does not answer [true] has changed nothing. *)
Lemma getActive_closed_gate user w r wg :
  getActive user w = (r, wg) -> r <> Ok true -> wg = w.
Proof.
  state_cases user w; intros H Hr; inversion H; subst; try reflexivity;
    elim Hr; reflexivity.
Qed.

(** [setData] splits on its gate. *)
Lemma setData_cases user _data w :
  (setData env ref user _data w
     = (Throw (blockActionError ref (Text "User have no any did")), add_log "setData" w)) \/
  (exists e, getActive user w = (Throw e, w) /\
     setData env ref user _data w = (Throw e, add_log "setData" w)) \/
  (setData env ref user _data w
     = (Throw (blockActionError ref (Text "Block not available")), add_log "setData" w)) \/
  (truthy_str (did user) = true /\ fst (getActive user w) = Ok true /\
   setData env ref user _data w =
     tryCatch (bind (setData_document env ref user _data) (setData_submit ref user))
       (setData_catch ref user) (add_log "setData" (snd (getActive user w)))).
Proof.
  destruct (truthy_str (did user)) eqn:Hdid.
  - pose proof (setData_after_gate env ref user _data w Hdid) as Hafter.
    destruct (getActive user w) as [[[ | ] | e] wg] eqn:Hg.
    + right; right; right. split; [ reflexivity | ]. split; [ reflexivity | ].
      apply Hafter. reflexivity.
    + right; right; left.
      assert (Hw : wg = w)
        by (apply (getActive_closed_gate user w _ wg Hg); discriminate).
      subst wg. unfold setData, ref_log.
      unfold bind at 1. unfold modify at 1. rewrite Hdid.
      change (negb true) with false. cbv iota.
      unfold bind at 1. rewrite getActive_after_log, Hg. reflexivity.
    + right; left. exists e.
      assert (Hw : wg = w)
        by (apply (getActive_closed_gate user w _ wg Hg); discriminate).
      subst wg. split; [ reflexivity | ].
      unfold setData, ref_log.
      unfold bind at 1. unfold modify at 1. rewrite Hdid.
      change (negb true) with false. cbv iota.
      unfold bind at 1. rewrite getActive_after_log, Hg. reflexivity.
  - left. unfold setData, ref_log, bind, modify. rewrite Hdid. reflexivity.
Qed.

(** Behind the gate, the user whose did is ['hasOwnProperty'] gets the
    TypeError of the hidden method from the [catch] block, without update
    or event. *)
Lemma setData_shadowing user _data w :
  truthy_str (did user) = true ->
  fst (getActive user w) = Ok true ->
  key_of user = "hasOwnProperty" ->
  exists w',
    setData env ref user _data w
      = (Throw (TypeError hasOwnProperty_is_not_a_function), w') /\
    events w' = events w /\ updates w' = updates w.
Proof.
  intros Hdid Hgate Hk.
  rewrite (setData_after_gate env ref user _data w Hdid Hgate).
  pose proof (getActive_Ok_shadows user true w Hgate Hk) as Hsh.
  destruct (getActive_journals user w) as (Hev & Hup & _).
  set (w0 := add_log "setData" (snd (getActive user w))).
  assert (Hsh0 : state w0 !! "hasOwnProperty" <> None) by exact Hsh.
  unfold tryCatch. unfold bind at 1.
  rewrite (setData_document_shadowed env ref user _data w0 Hsh0).
  unfold setData_catch, ref_error. unfold bind at 1. unfold modify at 1.
  unfold bind at 1.
  rewrite changeActive_shadowed by exact Hsh0.
  eexists. split; [ reflexivity | ]. split; [ exact Hev | exact Hup ].
Qed.

(** A [setData] that returns has passed the gate, restored Active, and
    triggered, in this order, the Refresh of entering Busy, the Refresh of
    leaving it, and Run and Refresh with a document that all validators
    accepted; it has pushed the two state updates. *)
Theorem setData_success user _data w w' :
  setData env ref user _data w = (Ok tt, w') ->
  truthy_str (did user) = true /\
  fst (getActive user w) = Ok true /\
  exists st,
    runValidators (getValidators ref) user st = Ok true /\
    events w' =
      (events w ++
         [refresh user; refresh user; run_with user st; refresh_with user st])%list /\
    updates w' = (updates w ++ busy_then_active user)%list /\
    actor_entry user w' = Some (Obj {| active := Some true |}).
Proof.
  intros Hrun.
  destruct (setData_cases user _data w)
    as [H | [(e & _ & H) | [H | (Hdid & Hgate & H)]]];
    try (rewrite H in Hrun; discriminate Hrun).
  split; [ exact Hdid | ]. split; [ exact Hgate | ].
  destruct (decide (key_of user = "hasOwnProperty")) as [Hk | Hk].
  { destruct (setData_shadowing user _data w Hdid Hgate Hk) as (w2 & Hth & _).
    rewrite Hth in Hrun. discriminate Hrun. }
  rewrite H in Hrun.
  destruct (gate_servable user w Hgate Hk) as (Hs & Hev & Hup).
  set (w0 := add_log "setData" (snd (getActive user w))) in *.
  destruct (setData_document_leaves_busy env ref user _data w0 Hs)
    as (Hs1 & _ & He1 & Hu1).
  unfold tryCatch, bind in Hrun.
  destruct (setData_document env ref user _data w0) as [[st | e0] w1] eqn:Hdoc;
    cbn [snd] in Hs1, He1, Hu1.
  - destruct (setData_submit_cases ref user st w1 Hs1) as [[e He] | [Hvalid Hok]].
    + rewrite He in Hrun.
      destruct (setData_catch_restores ref user e w1 Hs1) as (w3 & Hcatch & _).
      rewrite Hcatch in Hrun. discriminate Hrun.
    + rewrite Hok in Hrun. inversion Hrun; subst w'.
      exists st. split; [ exact Hvalid | ].
      destruct (with_entry_journals user {| active := Some true |} w1) as (He2 & Hu2 & _).
      cbn [events updates add_event add_update].
      rewrite He2, Hu2, He1, Hu1, Hev, Hup, <- !app_assoc.
      split; [ reflexivity | ]. split; [ reflexivity | ].
      erewrite <- (actor_entry_with_entry user). unfold actor_entry. reflexivity.
  - destruct (setData_catch_restores ref user e0 w1 Hs1) as (w3 & Hcatch & _).
    rewrite Hcatch in Hrun. discriminate Hrun.
Qed.


(** The block state of a user whose key is not [__proto__] is the own
    property under the key. *)
Lemma actor_entry_own user w :
  key_of user <> "__proto__" -> actor_entry user w = state w !! key_of user.
Proof.
  intros Hk. unfold actor_entry.
  destruct (state w !! key_of user); [ reflexivity | ].
  destruct (String.eqb (key_of user) "__proto__") eqn:Q; [ | reflexivity ].
  elim Hk. apply String.eqb_eq, Q.
Qed.

(** The Busy flag closes the gate: for a user whose did is neither
    ['hasOwnProperty'] nor ['__proto__'], from the world in which the
    preparation of a document has stopped, at its end or at a failing
    call, a [setData] of the same actor is refused with
    ['Block not available'] and changes nothing but the log. *)
Theorem setData_refused_while_busy user _data _data' w :
  truthy_str (did user) = true ->
  fst (getActive user w) = Ok true ->
  key_of user <> "hasOwnProperty" ->
  key_of user <> "__proto__" ->
  let w1 :=
    snd (setData_document env ref user _data
           (add_log "setData" (snd (getActive user w)))) in
  setData env ref user _data' w1 =
    (Throw (blockActionError ref (Text "Block not available")), add_log "setData" w1).
Proof.
  intros Hdid Hgate Hk Hp w1.
  destruct (gate_servable user w Hgate Hk) as (Hs & _).
  destruct (setData_document_leaves_busy env ref user _data _ Hs) as ((Hm & _) & Ha & _).
  fold w1 in Hm, Ha. rewrite (actor_entry_own user w1 Hp) in Ha.
  unfold method_visible in Hm.
  unfold setData, ref_log. unfold bind at 1. unfold modify at 1.
  rewrite Hdid. change (negb true) with false. cbv iota.
  unfold bind at 1. unfold getActive, bind, get. simpl. rewrite Hm, Ha. reflexivity.
Qed.


(** [generateId] can fail for ['DID'] only.  The failure is logged and
    rethrown wrapped, no key has been stored in the wallet, and the
    block's state, events and updates are as they were. *)
Theorem generateId_failure idType user account key w e w' :
  generateId env ref idType user account key w = (Throw e, w') ->
  strict_eq_str idType "DID" = true /\
  exists cause,
    e = blockActionError ref (Caught cause) /\
    errors w' =
      (errors w ++
         ["generateId: " +:+ to_string idType +:+ " : " +:+ message cause])%list /\
    wallet w' = wallet w /\
    request_view w' = request_view w.
Proof.
  unfold generateId, tryCatch.
  destruct (strict_eq_str idType "UUID"); [ intros H; discriminate H | ].
  destruct (strict_eq_str idType "DID");
    [ | destruct (strict_eq_str idType "OWNER"); intros H; discriminate H ].
  unfold MessageServer_sendMessage, wallet_setKey, ref_error,
    bind, gets, modify, ret, await, check, throw.
  simpl.
  destruct (PolicyUtils_getTopic env) as [topic | c]; simpl;
    [ | intros H; inversion H; subst; split; [ reflexivity | ];
        exists c; repeat split ].
  destruct (sendMessage env _ _) as [result | c]; simpl;
    [ | intros H; inversion H; subst; split; [ reflexivity | ];
        exists c; repeat split ].
  destruct (saveDidDocument env _) as [c | ]; simpl;
    [ intros H; inversion H; subst; split; [ reflexivity | ];
      exists c; repeat split | ].
  destruct (wallet_setKey_fault env _ _ _) as [c | ]; simpl;
    [ intros H; inversion H; subst; split; [ reflexivity | ];
      exists c; repeat split | ].
  intros H; discriminate H.
Qed.

(** No rollback in [generateId]: when the ledger has accepted the DID
    message and the repository then refuses the DID document, the call
    fails with the message left on the ledger, no document persisted and
    no key stored. *)
Theorem generateId_no_rollback user account key w topic result cause :
  let didObject := DIDDocument_create env (entropy w) (topic_topicId topic) in
  let sub :=
    {| sub_operator := account; sub_topic := Some topic;
       sub_message :=
         {| msg_action := CreateDID; msg_document := DIDBody didObject;
            msg_relationships := [] |} |} in
  let doc :=
    {| dd_did := getDid didObject; dd_document := getDocument didObject;
       dd_status := DidDocumentStatus_CREATE;
       dd_messageId := getId result; dd_topicId := getTopicId result |} in
  PolicyUtils_getTopic env = Ok topic ->
  sendMessage env (ledger w) sub = Ok result ->
  saveDidDocument env doc = Some cause ->
  exists w',
    generateId env ref (VStr "DID") user account key w
      = (Throw (blockActionError ref (Caught cause)), w') /\
    ledger w' = (ledger w ++ [sub])%list /\
    didDocuments w' = didDocuments w /\
    wallet w' = wallet w.
Proof.
  intros didObject sub doc Htopic Hsend Hsave.
  eexists. split.
  - unfold generateId, tryCatch, MessageServer_sendMessage, wallet_setKey, ref_error,
      bind, gets, modify, ret, await, check, throw.
    simpl. rewrite Htopic. fold didObject. fold sub. rewrite Hsend.
    fold doc. rewrite Hsave. reflexivity.
  - simpl. repeat split.
Qed.

(** [validate] records nothing exactly when the options are valid. *)
Theorem request_validate_accepts_iff container :
  validate env ref container = (Ok tt, container) <-> request_options_valid env ref.
Proof.
  assert (Hgrow : forall (x : string * string),
            (Ok tt, (container ++ [x])%list) <> (Ok tt, container)).
  { intros x H. injection H as H. apply (f_equal length) in H.
    rewrite length_app in H. simpl in H. lia. }
  unfold request_options_valid, validate, tryCatch, addBlockError, bind, modify,
    await, ret.
  destruct (truthy (opt_schema (options ref))); simpl;
    [ | split; [ intros H; elim (Hgrow _ H) | intros (H & _); discriminate H ] ].
  destruct (is_string (opt_schema (options ref))); simpl;
    [ | split; [ intros H; elim (Hgrow _ H) | intros (_ & H & _); discriminate H ] ].
  destruct (findSchema env (opt_schema (options ref)) (topicId ref))
    as [[s | ] | e]; simpl;
    [ | split; [ intros H; elim (Hgrow _ H)
               | intros (_ & _ & [s Hs] & _); discriminate Hs ]
      | split; [ intros H; elim (Hgrow _ H)
               | intros (_ & _ & [s Hs] & _); discriminate Hs ] ].
  destruct (truthy (opt_presetSchema (options ref))); simpl.
  - destruct (findSchema env (opt_presetSchema (options ref)) (topicId ref))
      as [[s' | ] | e]; simpl.
    + split; [ intros _; repeat split; eauto | reflexivity ].
    + split; [ intros H; elim (Hgrow _ H) | ].
      intros (_ & _ & _ & H). destruct (H eq_refl) as [s' Hs']. discriminate Hs'.
    + split; [ intros H; elim (Hgrow _ H) | ].
      intros (_ & _ & _ & H). destruct (H eq_refl) as [s' Hs']. discriminate Hs'.
  - split; [ intros _; repeat split; eauto; discriminate | reflexivity ].
Qed.

(** With a valid [schema] option, [validate] reports a [presetSchema]
    that names no schema; and when the repository fails, the one error
    recorded is ['Unhandled exception'] with the cause's message. *)
Theorem validate_preset_and_exceptions container s :
  truthy (opt_schema (options ref)) = true ->
  is_string (opt_schema (options ref)) = true ->
  (forall cause,
     findSchema env (opt_schema (options ref)) (topicId ref) = Throw cause ->
     validate env ref container =
       (Ok tt, (container ++ [(uuid ref, "Unhandled exception " +:+ message cause)])%list)) /\
  (findSchema env (opt_schema (options ref)) (topicId ref) = Ok (Some s) ->
   truthy (opt_presetSchema (options ref)) = true ->
   (findSchema env (opt_presetSchema (options ref)) (topicId ref) = Ok None ->
    validate env ref container =
      (Ok tt,
       (container ++
          [(uuid ref,
            "Schema with id " +:+ dq +:+ to_string (opt_presetSchema (options ref))
              +:+ dq +:+ " does not exist")])%list)) /\
   (forall cause,
      findSchema env (opt_presetSchema (options ref)) (topicId ref) = Throw cause ->
      validate env ref container =
        (Ok tt,
         (container ++ [(uuid ref, "Unhandled exception " +:+ message cause)])%list))).
Proof.
  intros Hs Hstr. split.
  - intros cause Hfind.
    unfold validate, tryCatch, addBlockError, bind, modify, await.
    rewrite Hs, Hstr, Hfind. reflexivity.
  - intros Hfind Hpre. split.
    + intros Hnone.
      unfold validate, tryCatch, addBlockError, bind, modify, await.
      rewrite Hs, Hstr. simpl. rewrite Hfind, Hpre, Hnone. reflexivity.
    + intros cause Hthrow.
      unfold validate, tryCatch, addBlockError, bind, modify, await.
      rewrite Hs, Hstr. simpl. rewrite Hfind, Hpre, Hthrow. reflexivity.
Qed.

End Block.


End RequestExtras.

(** ** The Mint block: the remaining behaviour *)

Module MintExtras.
Import MintBlock MintTheorems.

Section Block.

Variable env : Env.
Variable ref : BlockRef.

Lemma accountType_known v :
  not_an_accountType v = false -> v = VStr "default" \/ v = VStr "custom".
Proof.
  unfold not_an_accountType, accountType_values. simpl.
  destruct v as [ | | b | n | s | ]; simpl; try discriminate.
  destruct (String.eqb s "default") eqn:Hd.
  - intros _. left. apply String.eqb_eq in Hd. subst. reflexivity.
  - destruct (String.eqb s "custom") eqn:Hc; [ | discriminate ].
    intros _. right. apply String.eqb_eq in Hc. subst. reflexivity.
Qed.

Lemma custom_known v : strict_eq_str v "custom" = true -> v = VStr "custom".
Proof.
  destruct v as [ | | b | n | s | ]; simpl; try discriminate.
  intros H. apply String.eqb_eq in H. subst. reflexivity.
Qed.

(** Takes [validate] apart, one test after the other. *)
Ltac validate_cases :=
  unfold validate, tryCatch, addBlockError, bind, modify, await, ret;
  repeat match goal with
         | |- context [ if negb ?b then _ else _ ] => destruct b eqn:?; cbn [negb]
         | |- context [ match findToken env ?x with _ => _ end ] =>
             destruct (findToken env x) as [[? | ] | ?] eqn:?
         | |- context [ if ?a && _ then _ else _ ] => destruct a eqn:?; cbn [andb negb]
         | |- context [ if ?b then _ else _ ] => destruct b eqn:?
         end.

(** [validate] records nothing exactly when the options are valid: a
    token id that is a string naming a token of the repository, a rule
    that is a non-empty string, and an account type that is ['default'],
    or ['custom'] together with an account id. *)
Theorem mint_validate_accepts_iff container :
  validate env ref container = (Ok tt, container) <-> mint_options_valid env ref.
Proof.
  unfold mint_options_valid. validate_cases.
  all: split;
    [ intros H; apply (f_equal snd) in H; cbn [snd] in H;
      try (exfalso; apply (f_equal length) in H; rewrite ?length_app in H;
           simpl in H; lia)
    | intros (H1 & H2 & [t' H3] & H4 & H5 & H6); try congruence;
      try (destruct H6 as [H6 | [H6 H7]];
           destruct (opt_accountType (options ref)); try discriminate H6;
           injection H6 as H6; subst;
           unfold not_an_accountType, accountType_values in *; simpl in *;
           congruence) ].
  all: try reflexivity.
  all: repeat split; eauto.
  all: first
         [ right; split;
           [ apply custom_known; assumption | first [ reflexivity | assumption ] ]
         | match goal with
           | Hn : not_an_accountType _ = false |- _ =>
               destruct (accountType_known _ Hn) as [Hk | Hk];
               [ left; exact Hk
               | destruct (opt_accountType (options ref)); try discriminate Hk;
                 injection Hk as Hk; subst;
                 unfold not_an_accountType, accountType_values in *; simpl in *;
                 congruence ]
           end ].
Qed.

Lemma custom_is_an_accountType v :
  strict_eq_str v "custom" = true -> not_an_accountType v = false.
Proof. intros H. apply custom_known in H. subst. reflexivity. Qed.

(** [validate] never throws and records at most three errors: the
    errors about [accountType] and about [accountId] exclude each other. *)
Theorem validate_at_most_three container :
  exists errs,
    validate env ref container = (Ok tt, (container ++ errs)%list) /\
    length errs <= 3 /\
    Forall (fun e => fst e = uuid ref) errs.
Proof.
  validate_cases.
  all: try match goal with
           | Hc : strict_eq_str _ "custom" = true,
             Hn : not_an_accountType _ = true |- _ =>
               apply custom_is_an_accountType in Hc; congruence
           end.
  all: first
         [ exists []; rewrite app_nil_r; split; [ reflexivity | ];
           split; [ simpl; lia | constructor ]
         | eexists; split; [ rewrite <- ?app_assoc; reflexivity | ];
           split; [ simpl; lia | repeat constructor ] ].
Qed.

(** [validate] does not stop at the first error: a missing [tokenId] and
    a missing [rule] are both recorded, in this order.  But when the
    lookup of the token fails, the one error recorded is
    ['Unhandled exception'], and [rule], [accountType] and [accountId]
    are not looked at. *)
Theorem validate_accumulates container :
  (truthy (opt_tokenId (options ref)) = false ->
   truthy (opt_rule (options ref)) = false ->
   exists rest,
     validate env ref container =
       (Ok tt,
        (container ++
           (uuid ref, "Option " +:+ dq +:+ "tokenId" +:+ dq +:+ " does not set")
           :: (uuid ref, "Option " +:+ dq +:+ "rule" +:+ dq +:+ " does not set")
           :: rest)%list)) /\
  (forall cause,
     truthy (opt_tokenId (options ref)) = true ->
     is_string (opt_tokenId (options ref)) = true ->
     findToken env (opt_tokenId (options ref)) = Throw cause ->
     validate env ref container =
       (Ok tt,
        (container ++ [(uuid ref, "Unhandled exception " +:+ message cause)])%list)).
Proof.
  split.
  - intros Ht Hr.
    unfold validate, tryCatch, addBlockError, bind, modify, await, ret.
    rewrite Ht, Hr. cbn [negb].
    destruct (not_an_accountType (opt_accountType (options ref)));
      destruct (strict_eq_str (opt_accountType (options ref)) "custom"
                && negb (truthy_str (opt_accountId (options ref))));
      eexists; rewrite <- ?app_assoc; reflexivity.
  - intros cause Ht Hs Hf.
    unfold validate, tryCatch, addBlockError, bind, modify, await, ret.
    rewrite Ht, Hs, Hf. reflexivity.
Qed.

(** Unfolds a run of [mintProcessing] given as a hypothesis. *)
Ltac walk H :=
  unfold mintProcessing, createMintVC, createVP, MessageServer_sendMessage, ref_log,
    bind, gets, modify, await, check, throw, ret in H;
  cbn [ledger vcRecords vpRecords mints events entropy add_log tick add_submission
         add_vcRecord add_vpRecord add_mint] in H;
  repeat match type of H with
         | context [ match ?x with _ => _ end ] =>
             lazymatch x with
             | context [ match _ with _ => _ end ] => fail
             | _ => destruct x eqn:?
             end
         end.

(** A run of [mintProcessing] that returns has persisted one VC record,
    built from the Mint VC, the id and topic returned for the VC message
    and the caller's relationships, then one VP record with the id
    returned for the VP message, and has then called the mint operation
    once, for the given recipient and with the id of the VP message.  The
    Mint VC is the credential that [createMintVC] has the root sign: its
    subject is the context of the policy's mint schema with the date,
    the token's id and the token amount.  The VP encloses the input
    documents followed by the Mint VC, under the uuid drawn at the start;
    the topic is the one of the given topic id, or the root topic when
    there is none. *)
Theorem mintProcessing_success token documents relationships topic_Id root user target
    w vp w' :
  mintProcessing env ref token documents relationships topic_Id root user target w
    = (Ok vp, w') ->
  exists tokenValue tokenAmount policySchema mintVC topic vcResult vpResult,
    PolicyUtils_tokenAmount env token
      (PolicyUtils_aggregate env (opt_rule (options ref)) documents)
      = (tokenValue, tokenAmount) /\
    PolicyUtils_getSchema env (ref_topicId ref) = Ok policySchema /\
    VcHelper_createVC env (root_did root) (root_hederaAccountKey root)
      (mint_subject env policySchema token tokenAmount) = Ok mintVC /\
    createMintVC env ref root token tokenAmount (tick w) = (Ok mintVC, tick w) /\
    VcHelper_createVP env (root_did root) (root_hederaAccountKey root)
      (documents ++ [mintVC])%list (GenerateUUIDv4 env (entropy w)) = Ok vp /\
    (if truthy_str topic_Id
     then PolicyUtils_getTopicById env (show_str topic_Id)
     else PolicyUtils_getTopic env root user) = Ok topic /\
    sendMessage env (ledger w) (vc_submission root topic mintVC relationships)
      = Ok vcResult /\
    sendMessage env (ledger w ++ [vc_submission root topic mintVC relationships])%list
      (vp_submission root topic vp relationships (getId vcResult)) = Ok vpResult /\
    vcRecords w' =
      (vcRecords w ++
         [PolicyUtils_createVCRecord env (policyId ref) (tag ref) DataTypes_MINT mintVC
            (did user) ("#" +:+ getSubjectType env mintVC)
            (getId vcResult) (getTopicId vcResult) relationships])%list /\
    vpRecords w' =
      (vpRecords w ++
         [{| vpr_hash := toCredentialHash env vp; vpr_document := vp;
             vpr_owner := did user; vpr_type := DataTypes_MINT;
             vpr_policyId := policyId ref; vpr_tag := tag ref;
             vpr_messageId := getId vpResult;
             vpr_topicId := getTopicId vpResult |}])%list /\
    mints w' =
      (mints w ++
         [{| mint_token := token; mint_tokenValue := tokenValue; mint_root := root;
             mint_targetAccountId := target;
             mint_messageId := getId vpResult |}])%list.
Proof.
  intros H. walk H; try discriminate H.
  all: inversion H; subst; clear H.
  all: eexists _, _, _, _, _, _, _.
  all: cbn [ledger vcRecords vpRecords mints add_log tick add_submission
              add_vcRecord add_vpRecord add_mint].
  all: repeat split; try eassumption; try reflexivity.
  all: unfold createMintVC, bind, await;
    repeat match goal with
           | E : ?x = _ |- context [ ?x ] => rewrite E
           end;
    reflexivity.
Qed.

(** The effects of [mintProcessing] come in stages, each one only after
    the one before has succeeded: VC message, VC record, VP message, VP
    record, mint call.  Whatever the outcome, the numbers of submissions,
    VC records, VP records and mint calls added are one of the six
    prefixes of that sequence; the run returns exactly when the mint
    call was made; one uuid is drawn and no event is triggered. *)
Theorem mintProcessing_stages token documents relationships topic_Id root user target
    w r w' :
  mintProcessing env ref token documents relationships topic_Id root user target w
    = (r, w') ->
  events w' = events w /\
  entropy w' = S (entropy w) /\
  exists a b c d : nat,
    length (ledger w') = length (ledger w) + a /\
    length (vcRecords w') = length (vcRecords w) + b /\
    length (vpRecords w') = length (vpRecords w) + c /\
    length (mints w') = length (mints w) + d /\
    In (a, b, c, d)
      [(0, 0, 0, 0); (1, 0, 0, 0); (1, 1, 0, 0); (2, 1, 0, 0); (2, 1, 1, 0);
       (2, 1, 1, 1)] /\
    (d = 1 <-> exists vp, r = Ok vp).
Proof.
  intros H. walk H.
  all: inversion H; subst; clear H.
  all: split; [ reflexivity | ]; split; [ reflexivity | ].
  all: cbn [ledger vcRecords vpRecords mints add_log tick add_submission
              add_vcRecord add_vpRecord add_mint].
  all: rewrite ?length_app; cbn [length].
  all: first
         [ exists 0, 0, 0, 0; split; [ lia | ]; split; [ lia | ]; split; [ lia | ];
           split; [ lia | ]; split; [ simpl; tauto | ];
           split; [ intros Hd; discriminate Hd | intros [vp0 Hv]; discriminate Hv ]
         | exists 1, 0, 0, 0; split; [ lia | ]; split; [ lia | ]; split; [ lia | ];
           split; [ lia | ]; split; [ simpl; tauto | ];
           split; [ intros Hd; discriminate Hd | intros [vp0 Hv]; discriminate Hv ]
         | exists 1, 1, 0, 0; split; [ lia | ]; split; [ lia | ]; split; [ lia | ];
           split; [ lia | ]; split; [ simpl; tauto | ];
           split; [ intros Hd; discriminate Hd | intros [vp0 Hv]; discriminate Hv ]
         | exists 2, 1, 0, 0; split; [ lia | ]; split; [ lia | ]; split; [ lia | ];
           split; [ lia | ]; split; [ simpl; tauto | ];
           split; [ intros Hd; discriminate Hd | intros [vp0 Hv]; discriminate Hv ]
         | exists 2, 1, 1, 0; split; [ lia | ]; split; [ lia | ]; split; [ lia | ];
           split; [ lia | ]; split; [ simpl; tauto | ];
           split; [ intros Hd; discriminate Hd | intros [vp0 Hv]; discriminate Hv ]
         | exists 2, 1, 1, 1; split; [ lia | ]; split; [ lia | ]; split; [ lia | ];
           split; [ lia | ]; split; [ simpl; tauto | ];
           split; [ intros _; eexists; reflexivity | reflexivity ] ].
Qed.

Lemma collect_topicIds field docs acc c :
  collect env ref field docs acc = Ok c ->
  topicIds c = (topicIds acc ++ topic_ids docs)%list.
Proof.
  revert acc. induction docs as [ | d docs IH ]; intros acc H; simpl in H.
  - inversion H; subst. rewrite app_nil_r. reflexivity.
  - assert (H' : collect env ref field docs
              {| vcs := vcs acc ++ [VcDocument_fromJsonTree env (document d)];
                 vsMessages :=
                   if truthy_str (messageId d)
                   then vsMessages acc ++ [show_str (messageId d)]
                   else vsMessages acc;
                 topicIds :=
                   if truthy_str (topicId d)
                   then topicIds acc ++ [show_str (topicId d)]
                   else topicIds acc;
                 accountIds :=
                   match accounts d with
                   | Some a => accountIds acc ++ [a !! field]
                   | None => accountIds acc
                   end |} = Ok c)
      by (destruct (signature d); [ exact H | exact H | discriminate H ]).
    rewrite (IH _ H'). simpl. unfold topic_ids. simpl.
    destruct (topicId d) as [s | ]; simpl; [ | reflexivity ].
    destruct (negb (String.eqb s EmptyString)); simpl; [ | reflexivity ].
    rewrite <- app_assoc. reflexivity.
Qed.

(** What [runAction] has established when it calls [mintProcessing]. *)
Lemma runAction_resolve_inv event w r w1 :
  runAction_resolve env ref event w = (Ok r, w1) ->
  let docs := PolicyUtils_getArray env (data (event_data event)) in
  findToken env (opt_tokenId (options ref)) = Ok (Some (res_token r)) /\
  (exists doc0,
     docs !! 0 = Some doc0 /\
     getUserById env (owner doc0) = Ok (Some (res_docOwner r))) /\
  getHederaAccount env (policyOwner ref) = Ok (res_root r) /\
  Forall (fun d => signature d <> INVALID) docs /\
  res_topicId r = topic_ids docs !! 0 /\
  res_targetAccountId r <> EmptyString /\
  res_targetAccountId r =
    show_str (if truthy_str (opt_accountId (options ref))
              then mjoin (account_values (account_field ref) docs !! 0)
              else hederaAccountId (res_docOwner r)).
Proof.
  intros H docs. unfold runAction_resolve in H. fold docs in H.
  unfold bind, await, throw, ret in H.
  destruct (findToken env _) as [[token | ] | e]; try discriminate H.
  rewrite bad_vc_guard_is_dead in H.
  destruct (docs !! 0) as [doc0 | ] eqn:Hdoc0; try discriminate H.
  destruct (getUserById env _) as [[docOwner | ] | e] eqn:Howner; try discriminate H.
  destruct (collect env ref (account_field ref) docs _) as [c | e] eqn:Ec;
    try discriminate H.
  pose proof (collect_topicIds _ _ _ _ Ec) as Ht.
  apply collect_Ok in Ec. destruct Ec as (_ & _ & Ha & Hvalid).
  simpl in Ht, Ha.
  match type of H with
  | context [ match ?f w with _ => _ end ] => destruct (f w) as [[[] | e] w2]
  end; try discriminate H.
  destruct (truthy_str (if truthy_str (opt_accountId (options ref)) then _ else _))
    eqn:Htarget; cbn [negb] in H; try discriminate H.
  destruct (getHederaAccount env _) as [root | e]; try discriminate H.
  inversion H; subst. simpl.
  split; [ reflexivity | ]. split; [ eauto | ]. split; [ reflexivity | ].
  split; [ exact Hvalid | ]. split; [ rewrite Ht; reflexivity | ].
  rewrite Ha in *. split; [ | reflexivity ].
  destruct (if truthy_str (opt_accountId (options ref)) then _ else _) as [t | ];
    simpl in *; [ | discriminate Htarget ].
  intros ->. discriminate Htarget.
Qed.


Lemma mintProcessing_events token documents relationships topic_Id root user target E :
  preserves (fun w => events w = E)
    (mintProcessing env ref token documents relationships topic_Id root user target).
Proof.
  unfold mintProcessing, createMintVC, createVP, MessageServer_sendMessage, ref_log.
  frame; assumption.
Qed.

(** Output events come last and only on success: a [runAction] that
    returns has triggered Run and then Refresh, for the owner of the first
    document and with the data of the incoming event; one that throws has
    triggered nothing. *)
Theorem runAction_events event w r w' :
  runAction env ref event w = (r, w') ->
  match r with
  | Ok _ =>
      exists doc0 docOwner,
        PolicyUtils_getArray env (data (event_data event)) !! 0 = Some doc0 /\
        getUserById env (owner doc0) = Ok (Some docOwner) /\
        events w' =
          (events w ++
             [mint_event RunEvent docOwner (event_data event);
              mint_event RefreshEvent docOwner (event_data event)])%list
  | Throw _ => events w' = events w
  end.
Proof.
  intros H. unfold runAction in H. unfold bind at 1 in H.
  pose proof (runAction_resolve_effects env ref event (mint_effects w) w eq_refl) as Heff.
  destruct (runAction_resolve env ref event w) as [[a | e] w1] eqn:Hres;
    simpl in Heff.
  - assert (He1 : events w1 = events w)
      by (unfold mint_effects in Heff; congruence).
    unfold bind at 1 in H.
    pose proof (mintProcessing_events (res_token a) (res_vcs a) (res_vsMessages a)
                  (res_topicId a) (res_root a) (res_docOwner a)
                  (res_targetAccountId a) (events w1) w1 eq_refl) as Hm.
    destruct (mintProcessing env ref _ _ _ _ _ _ _ w1) as [[vp | e] w2];
      simpl in Hm.
    + unfold ref_triggerEvents, bind, modify in H. inversion H; subst.
      destruct (runAction_resolve_inv event w a w1 Hres)
        as (_ & (doc0 & Hd & Ho) & _).
      exists doc0, (res_docOwner a). split; [ exact Hd | ]. split; [ exact Ho | ].
      simpl. rewrite Hm, He1, <- app_assoc. reflexivity.
    + inversion H; subst. congruence.
  - inversion H; subst. unfold mint_effects in Heff. congruence.
Qed.

(** The order of the checks in [runAction]: an unknown token id fails
    with ['Bad token id'] whatever the documents are; then an unknown
    owner of the first document fails with ['Bad User DID'], even when a
    document has an invalid signature; a failing repository is passed on
    as it is.  None of these leaves a trace. *)
Theorem runAction_check_order event w :
  let docs := PolicyUtils_getArray env (data (event_data event)) in
  (findToken env (opt_tokenId (options ref)) = Ok None ->
   runAction env ref event w
     = (Throw (blockActionError ref (Text "Bad token id")), w)) /\
  (forall cause,
     findToken env (opt_tokenId (options ref)) = Throw cause ->
     runAction env ref event w = (Throw cause, w)) /\
  (forall token doc0,
     findToken env (opt_tokenId (options ref)) = Ok (Some token) ->
     docs !! 0 = Some doc0 ->
     getUserById env (owner doc0) = Ok None ->
     runAction env ref event w
       = (Throw (blockActionError ref (Text "Bad User DID")), w)).
Proof.
  intros docs. split; [ | split ].
  - intros Ht. unfold runAction, runAction_resolve, bind, await, throw.
    rewrite Ht. reflexivity.
  - intros cause Ht. unfold runAction, runAction_resolve, bind, await, throw.
    rewrite Ht. reflexivity.
  - intros token doc0 Ht Hd Ho. unfold runAction, runAction_resolve. fold docs.
    unfold bind, await, throw. rewrite Ht, bad_vc_guard_is_dead, Hd, Ho. reflexivity.
Qed.

End Block.



End MintExtras.

(** ** The remaining behaviour on concrete collaborators *)

Module RequestExtrasExamples.
Import RequestVcDocumentBlock RequestSamples RequestExtras.


(** The schema arrives in the repository between two calls. *)
Lemma getSchema_asks_again_witness :
  let w1 := snd (getSchema request_env_without_schemas request_block fresh) in
  fst (getSchema request_env_without_schemas request_block fresh)
    = Throw (blockActionError request_block (Text "Waiting for schema")) /\
  getSchema env request_block w1 = (Ok a_schema, set_schema (Some a_schema) fresh).
Proof.
  intros w1.
  destruct (getSchema_asks_again request_env_without_schemas request_block fresh
              eq_refl eq_refl) as [H Hlater].
  split; [ rewrite H; reflexivity | ].
  apply (Hlater env a_schema). reflexivity.
Defined.

(** Alice reads [false] back; the user whose did is ['__proto__'] reads
    [true]. *)
Lemma getActive_after_changeActive_witness :
  (exists w1,
     changeActive alice false fresh = (Ok tt, w1) /\
     getActive alice w1 = (Ok false, w1)) /\
  (exists w1,
     changeActive proto_user false fresh = (Ok tt, w1) /\
     fst (getActive proto_user w1) = Ok true).
Proof.
  assert (Ha : servable alice fresh).
  { split; [ vm_compute; reflexivity | ].
    split; [ vm_compute; discriminate | intros p; vm_compute; discriminate ]. }
  assert (Hp : servable proto_user fresh).
  { split; [ vm_compute; reflexivity | ].
    split; [ vm_compute; discriminate | intros p; vm_compute; discriminate ]. }
  destruct (getActive_after_changeActive alice false fresh Ha) as (w1 & Hc & Hg & _).
  destruct (getActive_after_changeActive proto_user false fresh Hp)
    as (w2 & Hc2 & _ & Hg2).
  split.
  - exists w1. split; [ exact Hc | ]. apply Hg. vm_compute; discriminate.
  - exists w2. split; [ exact Hc2 | ]. apply Hg2; vm_compute; reflexivity.
Defined.

(** Alice gets the same answer twice; the user whose did is
    ['hasOwnProperty'] gets an answer once. *)
Lemma getActive_twice_witness :
  let w1 := snd (getActive alice fresh) in
  let w2 := snd (getActive shadow fresh) in
  (getActive alice fresh = (Ok true, w1) /\ getActive alice w1 = (Ok true, w1)) /\
  (getActive shadow fresh = (Ok true, w2) /\
   getActive shadow w2 = (Throw (TypeError hasOwnProperty_is_not_a_function), w2)).
Proof.
  intros w1 w2.
  assert (H : getActive alice fresh = (Ok true, w1)) by (vm_compute; reflexivity).
  assert (H2 : getActive shadow fresh = (Ok true, w2)) by (vm_compute; reflexivity).
  split; (split; [ assumption | ]).
  - exact (getActive_twice alice fresh true w1 H).
  - exact (getActive_twice shadow fresh true w2 H2).
Defined.

(** In the block as constructed, the did ["active"] meets the boolean. *)
Lemma boolean_entry_blocks_the_actor_witness :
  state fresh !! key_of active_user = Some (Prim true) /\
  setData env request_block active_user a_request fresh
    = (Throw (TypeError "Cannot create property 'active' on boolean 'true'"),
       add_log "setData" fresh).
Proof.
  assert (H : state fresh !! key_of active_user = Some (Prim true))
    by (vm_compute; reflexivity).
  assert (Hm : method_visible fresh) by (vm_compute; reflexivity).
  split; [ exact H | ].
  destruct (boolean_entry_blocks_the_actor env request_block active_user true a_request true
              fresh eq_refl Hm H) as (_ & _ & Hset).
  exact Hset.
Defined.

(** Under the did ['__proto__'] Busy is not stored as a property: while
    a document is being prepared the gate stays open, and a second
    [setData] of the same user goes through. *)
Lemma setData_not_refused_under_proto :
  let busy := snd (changeActive proto_user false fresh) in
  let w1 :=
    snd (setData_document env request_block proto_user a_request
           (add_log "setData" (snd (getActive proto_user fresh)))) in
  state busy = state fresh /\
  statePrototype busy = Some {| active := Some false |} /\
  actor_entry proto_user w1 = Some (Obj {| active := Some false |}) /\
  fst (getActive proto_user w1) = Ok true /\
  fst (setData env request_block proto_user a_request w1) = Ok tt.
Proof. intros busy w1. repeat split; vm_compute; reflexivity. Qed.

Lemma setData_success_witness :
  let w' := snd (setData env request_block alice a_request fresh) in
  setData env request_block alice a_request fresh = (Ok tt, w') /\
  exists st,
    events w' = [refresh alice; refresh alice; run_with alice st; refresh_with alice st] /\
    actor_entry alice w' = Some (Obj {| active := Some true |}).
Proof.
  intros w'.
  assert (H : setData env request_block alice a_request fresh = (Ok tt, w'))
    by (vm_compute; reflexivity).
  split; [ exact H | ].
  destruct (setData_success env request_block alice a_request fresh w' H)
    as (_ & _ & st & _ & Hev & _ & Hst).
  exists st. split; [ exact Hev | exact Hst ].
Defined.


Lemma setData_refused_while_busy_witness :
  let w1 :=
    snd (setData_document env request_block alice a_request
           (add_log "setData" (snd (getActive alice fresh)))) in
  fst (getActive alice fresh) = Ok true /\
  setData env request_block alice a_request w1 =
    (Throw (blockActionError request_block (Text "Block not available")), add_log "setData" w1).
Proof.
  intros w1.
  assert (H : fst (getActive alice fresh) = Ok true) by (vm_compute; reflexivity).
  split; [ exact H | ].
  apply (setData_refused_while_busy env request_block alice a_request a_request fresh
           eq_refl H);
    vm_compute; discriminate.
Defined.


Lemma generateId_failure_witness :
  let e := env_of (Some LedgerDown) in
  let r := generateId e request_block (VStr "DID") alice None None fresh in
  fst r = Throw (blockActionError request_block (Caught (Failure "submission failed"))) /\
  wallet (snd r) = wallet fresh /\
  errors (snd r) = ["generateId: DID : submission failed"].
Proof.
  intros e r.
  assert (H : r = (Throw (blockActionError request_block (Caught (Failure "submission failed"))),
                   snd r)) by (vm_compute; reflexivity).
  destruct (generateId_failure e request_block (VStr "DID") alice None None fresh _ (snd r) H)
    as (_ & cause & Hc & Herr & Hw & _).
  injection Hc as Hc. subst cause.
  split; [ rewrite H; reflexivity | ]. split; [ exact Hw | exact Herr ].
Defined.

Lemma generateId_no_rollback_witness :
  exists w',
    generateId request_env_refusing_did request_block (VStr "DID") alice (Some "0.0.1001") None
      fresh
      = (Throw (blockActionError request_block (Caught (Failure "write refused"))), w') /\
    length (ledger w') = 1 /\ didDocuments w' = [] /\ wallet w' = ∅.
Proof.
  destruct (generateId_no_rollback request_env_refusing_did request_block alice (Some "0.0.1001")
              None fresh {| topic_id := "root"; topic_topicId := "0.0.7" |}
              {| getId := "msg-0"; getTopicId := "0.0.7" |} (Failure "write refused"))
    as (w' & Hrun & Hled & Hdocs & Hw); try reflexivity.
  exists w'. split; [ exact Hrun | ]. rewrite Hled, Hdocs, Hw. repeat split.
Defined.

(** A [presetSchema] that names no schema, as a string and as a number;
    and a repository that fails. *)
Lemma validate_preset_and_exceptions_witness :
  let ref := block (VStr "#report") (VStr "#missing") VUndefined [] in
  let numbered := block (VStr "#report") (VNum (-7) eq_refl) VUndefined [] in
  validate env ref [] =
    (Ok tt,
     [("b-1", "Schema with id " +:+ dq +:+ "#missing" +:+ dq +:+ " does not exist")]) /\
  validate env numbered [] =
    (Ok tt,
     [("b-1", "Schema with id " +:+ dq +:+ "-7" +:+ dq +:+ " does not exist")]) /\
  validate (env_of (Some RepositoryDown)) ref [] =
    (Ok tt, [("b-1", "Unhandled exception repository unavailable")]).
Proof.
  intros ref numbered.
  destruct (validate_preset_and_exceptions env ref [] a_schema eq_refl eq_refl)
    as [_ Hpre].
  destruct (validate_preset_and_exceptions env numbered [] a_schema eq_refl eq_refl)
    as [_ Hnum].
  destruct (validate_preset_and_exceptions (env_of (Some RepositoryDown)) ref []
              a_schema eq_refl eq_refl) as [Hexn _].
  split; [ | split ].
  - destruct (Hpre eq_refl eq_refl) as [H _]. rewrite H; reflexivity.
  - destruct (Hnum eq_refl eq_refl) as [H _]. rewrite H; reflexivity.
  - rewrite (Hexn (Failure "repository unavailable")); reflexivity.
Defined.

End RequestExtrasExamples.

Module MintExtrasExamples.
Import MintBlock MintSamples MintTheorems MintExtras.

Lemma validate_accumulates_witness :
  let ref := mint_block VUndefined VUndefined (VStr "custom") None in
  validate env ref [] =
    (Ok tt,
     [("b-2", "Option " +:+ dq +:+ "tokenId" +:+ dq +:+ " does not set");
      ("b-2", "Option " +:+ dq +:+ "rule" +:+ dq +:+ " does not set");
      ("b-2", "Option " +:+ dq +:+ "accountId" +:+ dq +:+ " does not set")]) /\
  validate mint_env_one_message
    (mint_block (VStr "down") VUndefined VUndefined None) [] =
    (Ok tt, [("b-2", "Unhandled exception repository unavailable")]).
Proof.
  intros ref.
  destruct (validate_accumulates env ref []) as [Hacc _].
  destruct (validate_accumulates mint_env_one_message
              (mint_block (VStr "down") VUndefined VUndefined None) []) as [_ Hexn].
  split.
  - destruct (Hacc eq_refl eq_refl) as [rest Hrest]. rewrite Hrest.
    assert (Hv : validate env ref [] =
              (Ok tt,
               [("b-2", "Option " +:+ dq +:+ "tokenId" +:+ dq +:+ " does not set");
                ("b-2", "Option " +:+ dq +:+ "rule" +:+ dq +:+ " does not set");
                ("b-2", "Option " +:+ dq +:+ "accountId" +:+ dq +:+ " does not set")]))
      by (vm_compute; reflexivity).
    rewrite Hrest in Hv. exact Hv.
  - rewrite (Hexn (Failure "repository unavailable")); reflexivity.
Defined.

Lemma mintProcessing_success_witness :
  let ref := block None in
  let r :=
    mintProcessing env ref a_token [] ["prior-0"] (Some "0.0.7") a_root owner_user
      "0.0.2001" nothing in
  map mint_targetAccountId (mints (snd r)) = ["0.0.2001"] /\
  map mint_messageId (mints (snd r)) = map vpr_messageId (vpRecords (snd r)) /\
  length (vcRecords (snd r)) = 1.
Proof.
  intros ref r.
  assert (H : exists vp, r = (Ok vp, snd r))
    by (eexists; vm_compute; reflexivity).
  destruct H as [vp H].
  destruct (mintProcessing_success env ref a_token [] ["prior-0"] (Some "0.0.7") a_root
              owner_user "0.0.2001" nothing vp (snd r) H)
    as (tv & ta & sch & mintVC & topic & vcResult & vpResult
        & _ & _ & _ & _ & _ & _ & _ & _ & Hvc & Hvp & Hm).
  rewrite Hm, Hvp, Hvc. repeat split.
Defined.

(** The ledger accepts the VC message and refuses the VP message: one
    submission and one VC record, no VP record, no mint. *)
Lemma mintProcessing_stages_witness :
  let ref := block None in
  let r :=
    mintProcessing mint_env_one_message ref a_token [] ["prior-0"] None a_root
      owner_user "0.0.2001" nothing in
  fst r = Throw (Failure "submission failed") /\
  (length (ledger (snd r)), length (vcRecords (snd r)),
   length (vpRecords (snd r)), length (mints (snd r))) = (1, 1, 0, 0) /\
  events (snd r) = [].
Proof.
  intros ref r.
  destruct (mintProcessing_stages mint_env_one_message ref a_token [] ["prior-0"] None
              a_root owner_user "0.0.2001" nothing (fst r) (snd r)
              ltac:(unfold r; destruct (mintProcessing _ _ _ _ _ _ _ _ _ _); reflexivity))
    as (Hev & _).
  split; [ vm_compute; reflexivity | ]. split; [ vm_compute; reflexivity | ].
  exact Hev.
Defined.


Lemma runAction_events_witness :
  let ref := block None in
  let ev := event_of [doc 0 VERIFIED X] in
  events (snd (runAction env ref ev nothing)) =
    [mint_event RunEvent owner_user (event_data ev);
     mint_event RefreshEvent owner_user (event_data ev)] /\
  events (snd (runAction mint_env_one_message ref ev nothing)) = [].
Proof.
  intros ref ev.
  pose proof (runAction_events env ref ev nothing
                (fst (runAction env ref ev nothing)) (snd (runAction env ref ev nothing))
                ltac:(destruct (runAction env ref ev nothing); reflexivity)) as Hok.
  pose proof (runAction_events mint_env_one_message ref ev nothing
                (fst (runAction mint_env_one_message ref ev nothing))
                (snd (runAction mint_env_one_message ref ev nothing))
                ltac:(destruct (runAction mint_env_one_message ref ev nothing);
                      reflexivity)) as Hfail.
  split.
  - assert (Hr : fst (runAction env ref ev nothing) = Ok tt) by (vm_compute; reflexivity).
    rewrite Hr in Hok. destruct Hok as (doc0 & docOwner & Hd & Ho & Hev).
    simpl in Hd. injection Hd as Hd. subst doc0.
    simpl in Ho. injection Ho as Ho. subst docOwner. exact Hev.
  - assert (Hr : fst (runAction mint_env_one_message ref ev nothing)
                 = Throw (Failure "submission failed")) by (vm_compute; reflexivity).
    rewrite Hr in Hfail. exact Hfail.
Defined.

(** A document of an unknown owner with an invalid signature: the token
    is checked first, then the owner; the signature is not reached. *)
Lemma runAction_check_order_witness :
  let unknown := mint_block (VStr "0.0.unknown") (VStr "field0") (VStr "default") None in
  runAction mint_env_one_message unknown (event_of [orphan]) nothing
    = (Throw (blockActionError unknown (Text "Bad token id")), nothing) /\
  runAction mint_env_one_message (block None) (event_of [orphan]) nothing
    = (Throw (blockActionError (block None) (Text "Bad User DID")), nothing).
Proof.
  intros unknown.
  destruct (runAction_check_order mint_env_one_message unknown
              (event_of [orphan]) nothing) as (Htoken & _ & _).
  destruct (runAction_check_order mint_env_one_message (block None)
              (event_of [orphan]) nothing) as (_ & _ & Howner).
  split.
  - rewrite Htoken; reflexivity.
  - rewrite (Howner a_token orphan); reflexivity.
Defined.

Lemma runAction_invalid_signature_witness :
  runAction env (block None) (event_of [doc 0 VERIFIED X; doc 1 INVALID Y]) nothing
    = (Throw (blockActionError (block None) (Text "Invalid VC proof")), nothing).
Proof.
  apply (runAction_invalid_signature env (block None)
           (event_of [doc 0 VERIFIED X; doc 1 INVALID Y]) nothing a_token
           (doc 0 VERIFIED X) owner_user); try reflexivity.
  apply Exists_cons_tl, Exists_cons_hd. reflexivity.
Defined.

Lemma runAction_submissions_witness :
  let ref := block None in
  let ev := event_of [doc 0 VERIFIED X; doc 1 VERIFIED X] in
  map (fun s => msg_relationships (sub_message s))
    (ledger (snd (runAction env ref ev nothing)))
    = [["prior-0"; "prior-1"]; ["prior-0"; "prior-1"; "msg-0"]].
Proof.
  intros ref ev.
  destruct (runAction_submissions env ref ev nothing (snd (runAction env ref ev nothing))
              MintExamples.sample_ledger_returns_concrete_ids
              ltac:(vm_compute; reflexivity))
    as (root & topic & mintVC & vp & vcResult & Hvc & _ & Hl).
  rewrite Hl. simpl in Hvc. inversion Hvc; subst. reflexivity.
Defined.

End MintExtrasExamples.
